(** * OpenCLAW model router: classification, rule matching, budget

    A shallow embedding of [src/router.py] (class [ModelRouter]) and the
    properties of its decision engine.

    Conventions of the embedding.
    - Python [str] is [string]; [str.lower] acts on the ASCII letters, which
      is all the keyword tables of [classify_task] contain.
    - [Dict[str, Model]] is an association list in insertion order, because
      [find_cheapest_model] iterates [self.models.values()] and [min] keeps
      the first minimum it meets.  A dictionary holds each key once; no
      statement below needs that, they hold for every association list.
    - A routing rule is one entry of the parsed YAML list, with string
      values; each key that the code reads with [dict.get] is an [option]
      field, [None] standing for an absent key.
    - A decision is the [dict] that [route_task] returns: an association list
      from key to [pyval], so that "the key is missing" and "the key holds
      [None]" stay distinct.
    - Integers are [Z].  The router is modelled twice.  In [ModelRouter] the
      budget counters are the exact rational values of the Python numbers:
      comparisons of Python numbers are exact, so the budget gate, the rule
      scan and the selection are those of the code, while [track_cost] and
      [budget_remaining] are taken without rounding; this reading carries the
      statements on control flow and on order.  In [Router64] the counters
      are Python numbers, [int] or binary64 [float], with the arithmetic of
      the interpreter, rounding and [OverflowError] included
      ([track_cost64], [route_task64]); this reading carries the statements
      on the values that [track_cost] stores and [route_task] reports. *)

From Stdlib Require Import List Bool ZArith QArith Qfield Qpower Ascii String.
From Stdlib Require Import Lia Lqa SpecFloat Zpower.
Import ListNotations.

Open Scope string_scope.

(** ** Python values and dictionaries *)

Inductive pyval : Type :=
| PyNone : pyval
| PyStr (s : string) : pyval
| PyInt (z : Z) : pyval
| PyNum (q : Q) : pyval.

Definition dict (V : Type) : Type := list (string * V).

(** [d.get(k)] *)
Fixpoint dict_get {V : Type} (k : string) (d : dict V) : option V :=
  match d with
  | [] => None
  | (k', v) :: rest => if k' =? k then Some v else dict_get k rest
  end.

(** [d.values()] *)
Definition dict_values {V : Type} (d : dict V) : list V := map snd d.

(** Truthiness of the result of [dict.get] on a string-valued key. *)
Definition truthy (v : option string) : bool :=
  match v with
  | Some s => negb (s =? "")
  | None => false
  end.

(** [v == s] for [v] the result of [dict.get] and [s] a string. *)
Definition get_eqb (v : option string) (s : string) : bool :=
  match v with
  | Some x => x =? s
  | None => false
  end.

(** ** Strings: [lower] and the [in] operator *)

Definition lower_ascii (c : ascii) : ascii :=
  let n := nat_of_ascii c in
  if ((65 <=? n) && (n <=? 90))%nat then ascii_of_nat (n + 32) else c.

Fixpoint lower (s : string) : string :=
  match s with
  | EmptyString => EmptyString
  | String c rest => String (lower_ascii c) (lower rest)
  end.

Fixpoint starts_with (word s : string) : bool :=
  match word, s with
  | EmptyString, _ => true
  | String _ _, EmptyString => false
  | String a word', String b s' => Ascii.eqb a b && starts_with word' s'
  end.

(** [word in s] *)
Fixpoint str_in (word s : string) : bool :=
  starts_with word s ||
  match s with
  | EmptyString => false
  | String _ rest => str_in word rest
  end.

(** [any(word in desc for word in words)] *)
Definition any_in (words : list string) (desc : string) : bool :=
  existsb (fun word => str_in word desc) words.

(** ** Data classes *)

Record Model : Type := mkModel {
  name : string;
  type : list string;
  cost_per_1m_tokens : Z;
  max_context : Z;
  priority : Z;
  capabilities : list string
}.

Record Task : Type := mkTask {
  description : string;
  task_type : string;
  complexity : string;
  task_priority : string;
  require_fallback : bool
}.

(** [Task(description=d, task_type=t, complexity=c)] with the defaults of
    the data class for the two other fields. *)
Definition new_Task (d t c : string) : Task := mkTask d t c "normal" true.

Record When : Type := mkWhen {
  when_task_type : option string;
  when_complexity : option string
}.

Record RoutingRule : Type := mkRule {
  when : option When;
  use : option string;
  fallback : option string;
  reasoning : option string
}.

Record ModelRouter : Type := mkRouter {
  config_path : string;
  models : dict Model;
  routing_rules : list RoutingRule;
  budget_spent_today : Q;
  daily_limit : Q
}.

Definition Decision : Type := dict pyval.

(** ** [classify_task] *)

Definition classify_task (task_description : string) : Task :=
  let desc := lower task_description in
  let task_type :=
    if any_in ["write code"; "create function"; "implement"] desc then
      "code_simple"
    else if any_in ["review code"; "refactor"; "audit"] desc then
      "code_review"
    else if any_in ["debug"; "fix error"; "solve bug"] desc then
      "debugging"
    else if any_in ["architecture"; "design system"; "scale"] desc then
      "code_complex"
    else if any_in ["generate image"; "create picture"] desc then
      "image"
    else if any_in ["analyze data"; "process data"] desc then
      "data"
    else
      "chat" in
  let complexity :=
    if any_in ["simple"; "basic"; "easy"] desc then "low"
    else if any_in ["complex"; "advanced"; "architecture"] desc then "high"
    else "medium" in
  new_Task task_description task_type complexity.

(** ** [find_cheapest_model] *)

(** [task.task_type in m.type] *)
Definition capable_of (task : Task) (m : Model) : bool :=
  existsb (fun t => t =? task_type task) (type m).

(** [min(l, key=lambda m: m.cost_per_1m_tokens, default=None)]: the running
    best is replaced only by a strictly smaller key, so among equal keys the
    earliest element is kept. *)
Definition min_step (best m : Model) : Model :=
  if (cost_per_1m_tokens m <? cost_per_1m_tokens best)%Z then m else best.

Definition min_by_cost (l : list Model) : option Model :=
  match l with
  | [] => None
  | m :: rest => Some (fold_left min_step rest m)
  end.

Definition find_cheapest_model (self : ModelRouter) (task : Task)
  : option Model :=
  let capable := filter (capable_of task) (dict_values (models self)) in
  min_by_cost capable.

(** ** [route_task] *)

(** What the body of [route_task] executes besides building its result:
    one [EvalRule] per iteration of the rule loop and one [SelectCheapest]
    per call of [find_cheapest_model]. *)
Inductive event : Type :=
| EvalRule (rule : RoutingRule)
| SelectCheapest (task : Task).

Definition empty_when : When := mkWhen None None.

(** [rule.get('when', {})] *)
Definition when_of (rule : RoutingRule) : When :=
  match when rule with
  | Some w => w
  | None => empty_when
  end.

(** The loop body up to its two [continue] statements: [true] when the rule
    is the one the loop returns from. *)
Definition rule_applies (rule : RoutingRule) (task : Task) : bool :=
  let w := when_of rule in
  let type_match := get_eqb (when_task_type w) (task_type task) in
  let complexity_match := get_eqb (when_complexity w) (complexity task) in
  if truthy (when_task_type w) && negb type_match then false
  else if truthy (when_complexity w) && negb complexity_match then false
  else true.

(** [for rule in self.routing_rules]: the rules looked at, and the rule the
    loop returns from, if any. *)
Fixpoint scan_rules (rules : list RoutingRule) (task : Task)
  : list event * option RoutingRule :=
  match rules with
  | [] => ([], None)
  | rule :: rest =>
      if rule_applies rule task then ([EvalRule rule], Some rule)
      else
        let (evs, found) := scan_rules rest task in
        (EvalRule rule :: evs, found)
  end.

Definition opt_pyval {A : Type} (f : A -> pyval) (o : option A) : pyval :=
  match o with
  | Some a => f a
  | None => PyNone
  end.

Definition blocked_decision : Decision :=
  [ ("status", PyStr "blocked");
    ("reason", PyStr "Daily budget exceeded");
    ("suggestion", PyStr "Wait for budget reset or increase limit") ].

(** The [return] inside the loop.  On exact values [budget_remaining] is
    the exact difference; the value that the interpreter computes is in
    [rule_decision64] below. *)
Definition rule_decision (self : ModelRouter) (task : Task)
  (rule : RoutingRule) : list event * Decision :=
  let model_id := use rule in
  let fallback := fallback rule in
  let reasoning :=
    match reasoning rule with
    | Some r => r
    | None => "No reasoning provided"
    end in
  let selected_model :=
    match model_id with
    | Some id => dict_get id (models self)
    | None => None
    end in
  let fallback_model :=
    if truthy fallback then
      match fallback with
      | Some id => dict_get id (models self)
      | None => None
      end
    else None in
  let (evs, selected_model) :=
    match selected_model with
    | Some m => ([], Some m)
    | None => ([SelectCheapest task], find_cheapest_model self task)
    end in
  (evs,
   [ ("status", PyStr "routed");
     ("task", PyStr (description task));
     ("task_type", PyStr (task_type task));
     ("complexity", PyStr (complexity task));
     ("selected_model", opt_pyval (fun m => PyStr (name m)) selected_model);
     ("fallback_model", opt_pyval (fun m => PyStr (name m)) fallback_model);
     ("reasoning", PyStr reasoning);
     ("estimated_cost",
        opt_pyval (fun m => PyInt (cost_per_1m_tokens m)) selected_model);
     ("budget_remaining",
        PyNum (daily_limit self - budget_spent_today self)%Q) ]).

(** The [return] after the loop. *)
Definition default_decision (self : ModelRouter) (task : Task)
  : list event * Decision :=
  let model := find_cheapest_model self task in
  ([SelectCheapest task],
   [ ("status", PyStr "routed");
     ("task", PyStr (description task));
     ("task_type", PyStr (task_type task));
     ("complexity", PyStr (complexity task));
     ("selected_model", opt_pyval (fun m => PyStr (name m)) model);
     ("reasoning", PyStr "No matching rule - using cheapest option");
     ("estimated_cost",
        opt_pyval (fun m => PyInt (cost_per_1m_tokens m)) model) ]).

(** [self.budget_spent_today >= self.daily_limit] *)
Definition budget_exceeded (self : ModelRouter) : bool :=
  Qle_bool (daily_limit self) (budget_spent_today self).

Definition route_task_run (self : ModelRouter) (task : Task)
  : list event * Decision :=
  if budget_exceeded self then ([], blocked_decision)
  else
    let (scanned, found) := scan_rules (routing_rules self) task in
    let (evs, decision) :=
      match found with
      | Some rule => rule_decision self task rule
      | None => default_decision self task
      end in
    ((scanned ++ evs)%list, decision).

Definition route_task (self : ModelRouter) (task : Task) : Decision :=
  snd (route_task_run self task).

Definition route_task_events (self : ModelRouter) (task : Task) : list event :=
  fst (route_task_run self task).

(** ** [track_cost] *)


(** ** Python numbers: [int] and binary64 [float] *)

Inductive pynum : Type :=
| PyI (z : Z)
| PyF (f : spec_float).

Inductive pyerror : Type :=
| OverflowError.

(** The integer [z] rounded to binary64, to nearest, ties to even. *)
Definition b64_of_int (z : Z) : spec_float :=
  binary_normalize 53 1024 z 0 false.

(** An integer as an unrounded operand of the division. *)
Definition raw_int (z : Z) : spec_float :=
  match z with
  | Z0 => S754_zero false
  | Zpos p => S754_finite false p 0
  | Zneg p => S754_finite true p 0
  end.

(** Conversions and the true division raise where the rounded result would
    be infinite. *)
Definition finite_or_raise (f : spec_float) : pyerror + spec_float :=
  match f with
  | S754_infinity _ => inl OverflowError
  | _ => inr f
  end.

(** [float(z)], the conversion applied to an [int] operand that meets a
    [float]. *)
Definition float_of_int (z : Z) : pyerror + spec_float :=
  finite_or_raise (b64_of_int z).

(** [a / b] on two [int]s, [b] not zero: the quotient of the integers,
    rounded once. *)
Definition int_truediv (a b : Z) : pyerror + spec_float :=
  finite_or_raise (SFdiv 53 1024 (raw_int a) (raw_int b)).

(** [x * c] for a [float] and an [int]. *)
Definition float_mul_int (x : spec_float) (c : Z) : pyerror + spec_float :=
  match float_of_int c with
  | inl e => inl e
  | inr fc => inr (SFmul 53 1024 x fc)
  end.

(** [n + x] for a number and a [float]: the result is a [float]. *)
Definition num_add_float (n : pynum) (x : spec_float)
  : pyerror + spec_float :=
  match n with
  | PyI z =>
      match float_of_int z with
      | inl e => inl e
      | inr f => inr (SFadd 53 1024 f x)
      end
  | PyF f => inr (SFadd 53 1024 f x)
  end.

(** [a - b] *)
Definition num_sub (a b : pynum) : pyerror + pynum :=
  match a, b with
  | PyI x, PyI y => inr (PyI (x - y))
  | PyI x, PyF g =>
      match float_of_int x with
      | inl e => inl e
      | inr f => inr (PyF (SFsub 53 1024 f g))
      end
  | PyF f, PyI y =>
      match float_of_int y with
      | inl e => inl e
      | inr g => inr (PyF (SFsub 53 1024 f g))
      end
  | PyF f, PyF g => inr (PyF (SFsub 53 1024 f g))
  end.

(** The rational that a finite float stands for ([0] for the others). *)
Definition SF2Q (f : spec_float) : Q :=
  match f with
  | S754_finite s m e => (inject_Z (cond_Zopp s (Zpos m)) * 2 ^ e)%Q
  | _ => 0%Q
  end.

(** A [float] against an [int]: the interpreter compares the two values
    exactly, without converting the [int]. *)
Definition float_cmp_int (f : spec_float) (z : Z) : option comparison :=
  match f with
  | S754_nan => None
  | S754_infinity s => Some (if s then Lt else Gt)
  | _ => Some (Qcompare (SF2Q f) (inject_Z z))
  end.

(** [a >= b] *)
Definition num_ge (a b : pynum) : bool :=
  match a, b with
  | PyI x, PyI y => (y <=? x)%Z
  | PyF f, PyF g => SFleb g f
  | PyF f, PyI y =>
      match float_cmp_int f y with
      | Some Gt | Some Eq => true
      | _ => false
      end
  | PyI x, PyF g =>
      match float_cmp_int g x with
      | Some Lt | Some Eq => true
      | _ => false
      end
  end.

(** ** The router on Python numbers *)

Inductive pyval64 : Type :=
| NoneVal : pyval64
| StrVal (s : string) : pyval64
| NumVal (n : pynum) : pyval64.

Definition Decision64 : Type := dict pyval64.

Record Router64 : Type := mkRouter64 {
  config_path64 : string;
  models64 : dict Model;
  routing_rules64 : list RoutingRule;
  budget_spent_today64 : pynum;
  daily_limit64 : pynum
}.

Definition track_cost64 (self : Router64) (model_id : string)
  (tokens_used : Z) : pyerror + Router64 :=
  match dict_get model_id (models64 self) with
  | Some model =>
      match int_truediv tokens_used 1000000 with
      | inl e => inl e
      | inr per_million =>
      match float_mul_int per_million (cost_per_1m_tokens model) with
      | inl e => inl e
      | inr cost =>
      match num_add_float (budget_spent_today64 self) cost with
      | inl e => inl e
      | inr spent =>
          inr (mkRouter64 (config_path64 self) (models64 self)
                 (routing_rules64 self) (PyF spent) (daily_limit64 self))
      end end end
  | None => inr self
  end.

Definition find_cheapest_model64 (self : Router64) (task : Task)
  : option Model :=
  let capable := filter (capable_of task) (dict_values (models64 self)) in
  min_by_cost capable.

Definition opt_pyval64 {A : Type} (f : A -> pyval64) (o : option A)
  : pyval64 :=
  match o with
  | Some a => f a
  | None => NoneVal
  end.

Definition blocked_decision64 : Decision64 :=
  [ ("status", StrVal "blocked");
    ("reason", StrVal "Daily budget exceeded");
    ("suggestion", StrVal "Wait for budget reset or increase limit") ].

(** The [return] inside the loop; the subtraction is the one expression of
    the dictionary that can raise. *)
Definition rule_decision64 (self : Router64) (task : Task)
  (rule : RoutingRule) : pyerror + Decision64 :=
  let model_id := use rule in
  let fallback := fallback rule in
  let reasoning :=
    match reasoning rule with
    | Some r => r
    | None => "No reasoning provided"
    end in
  let selected_model :=
    match model_id with
    | Some id => dict_get id (models64 self)
    | None => None
    end in
  let fallback_model :=
    if truthy fallback then
      match fallback with
      | Some id => dict_get id (models64 self)
      | None => None
      end
    else None in
  let selected_model :=
    match selected_model with
    | Some m => Some m
    | None => find_cheapest_model64 self task
    end in
  match num_sub (daily_limit64 self) (budget_spent_today64 self) with
  | inl e => inl e
  | inr remaining =>
      inr [ ("status", StrVal "routed");
            ("task", StrVal (description task));
            ("task_type", StrVal (task_type task));
            ("complexity", StrVal (complexity task));
            ("selected_model",
               opt_pyval64 (fun m => StrVal (name m)) selected_model);
            ("fallback_model",
               opt_pyval64 (fun m => StrVal (name m)) fallback_model);
            ("reasoning", StrVal reasoning);
            ("estimated_cost",
               opt_pyval64 (fun m => NumVal (PyI (cost_per_1m_tokens m)))
                 selected_model);
            ("budget_remaining", NumVal remaining) ]
  end.

(** The [return] after the loop. *)
Definition default_decision64 (self : Router64) (task : Task) : Decision64 :=
  let model := find_cheapest_model64 self task in
  [ ("status", StrVal "routed");
    ("task", StrVal (description task));
    ("task_type", StrVal (task_type task));
    ("complexity", StrVal (complexity task));
    ("selected_model", opt_pyval64 (fun m => StrVal (name m)) model);
    ("reasoning", StrVal "No matching rule - using cheapest option");
    ("estimated_cost",
       opt_pyval64 (fun m => NumVal (PyI (cost_per_1m_tokens m))) model) ].

Definition route_task64 (self : Router64) (task : Task)
  : pyerror + Decision64 :=
  if num_ge (budget_spent_today64 self) (daily_limit64 self) then
    inr blocked_decision64
  else
    match snd (scan_rules (routing_rules64 self) task) with
    | Some rule => rule_decision64 self task rule
    | None => inr (default_decision64 self task)
    end.

(** ** Construction *)

(** What [__init__] leaves when the configuration file is missing:
    [get_example_config] has no model, no rule and a limit of 50000. *)
Definition example_router (path : string) : ModelRouter :=
  mkRouter path [] [] 0%Q 50000%Q.

(** ** Notions on Python numbers *)

(** [0.0 < f] *)
Definition float_positive (f : spec_float) : Prop :=
  SFltb (S754_zero false) f = true.

(** [0 < n] *)
Definition num_positive (n : pynum) : Prop :=
  match n with
  | PyI z => (0 < z)%Z
  | PyF f => float_positive f
  end.

(** A binary64 number: a float in the format, NaN apart. *)
Definition binary64 (f : spec_float) : Prop :=
  valid_binary 53 1024 f = true /\ f <> S754_nan.

(** A number on which [int] and [float] arithmetic meet without loss: an
    [int] of magnitude at most [2^53], or a binary64 number. *)
Definition plain_number (n : pynum) : Prop :=
  match n with
  | PyI z => (Z.abs z <= 2 ^ 53)%Z
  | PyF f => binary64 f
  end.

(** A zero, or a finite float whose exponent is one of the format. *)
Definition small_exp (f : spec_float) : Prop :=
  match f with
  | S754_zero _ => True
  | S754_finite _ _ e => (-1074 <= e)%Z
  | _ => False
  end.

(** The exact order on floats other than NaN: [sf_lt y x] is [y < x]. *)
Definition sf_lt (y x : spec_float) : Prop :=
  match y, x with
  | S754_nan, _ | _, S754_nan => False
  | S754_infinity sy, S754_infinity sx => sy = true /\ sx = false
  | S754_infinity sy, _ => sy = true
  | _, S754_infinity sx => sx = false
  | _, _ => (SF2Q y < SF2Q x)%Q
  end.

(** ** [load_config] and [__init__] *)

(** [d[k] = v]: an existing key keeps its position, a new key goes last. *)
Fixpoint dict_set {V : Type} (k : string) (v : V) (d : dict V) : dict V :=
  match d with
  | [] => [(k, v)]
  | (k', v') :: rest =>
      if k' =? k then (k, v) :: rest else (k', v') :: dict_set k v rest
  end.

(** One entry of the [models] mapping of the parsed configuration.  The five
    keys read with [model_config[...]] are optional here so that a missing
    one can raise; [capabilities] is read with [get]. *)
Record ModelConfig : Type := mkModelConfig {
  cfg_name : option string;
  cfg_type : option (list string);
  cfg_cost_per_1m_tokens : option Z;
  cfg_max_context : option Z;
  cfg_priority : option Z;
  cfg_capabilities : option (list string)
}.

Record BudgetConfig : Type := mkBudgetConfig {
  cfg_daily_limit : option Q
}.

(** The document that [yaml.safe_load] returns. *)
Record Config : Type := mkConfig {
  cfg_budget : option BudgetConfig;
  cfg_models : option (dict ModelConfig);
  cfg_routing_rules : option (list RoutingRule)
}.

Inductive KeyError : Type :=
| MissingKey (key : string).

(** [Model(name=model_config['name'], ...)]: the arguments are evaluated in
    the order written, the first missing key raises. *)
Definition build_model (model_config : ModelConfig) : KeyError + Model :=
  match cfg_name model_config with
  | None => inl (MissingKey "name")
  | Some n =>
  match cfg_type model_config with
  | None => inl (MissingKey "type")
  | Some t =>
  match cfg_cost_per_1m_tokens model_config with
  | None => inl (MissingKey "cost_per_1m_tokens")
  | Some c =>
  match cfg_max_context model_config with
  | None => inl (MissingKey "max_context")
  | Some mc =>
  match cfg_priority model_config with
  | None => inl (MissingKey "priority")
  | Some p =>
      inr (mkModel n t c mc p
             (match cfg_capabilities model_config with
              | Some caps => caps
              | None => []
              end))
  end end end end end.

(** [for model_id, model_config in config.get('models', {}).items()] *)
Fixpoint load_models (items : dict ModelConfig) (models : dict Model)
  : KeyError + dict Model :=
  match items with
  | [] => inr models
  | (model_id, model_config) :: rest =>
      match build_model model_config with
      | inl e => inl e
      | inr m => load_models rest (dict_set model_id m models)
      end
  end.

Definition get_example_config : Config :=
  mkConfig (Some (mkBudgetConfig (Some 50000%Q))) (Some []) (Some []).

(** [load_config], given what opening and parsing the file yields: [None]
    stands for [FileNotFoundError]. *)
Definition load_config (self : ModelRouter) (file : option Config)
  : KeyError + ModelRouter :=
  let config :=
    match file with
    | Some c => c
    | None => get_example_config
    end in
  let limit :=
    match cfg_budget config with
    | Some b =>
        match cfg_daily_limit b with
        | Some l => l
        | None => 50000%Q
        end
    | None => 50000%Q
    end in
  match load_models
          (match cfg_models config with Some ms => ms | None => [] end)
          (models self) with
  | inl e => inl e
  | inr ms =>
      inr (mkRouter (config_path self) ms
             (match cfg_routing_rules config with
              | Some rules => rules
              | None => []
              end)
             (budget_spent_today self) limit)
  end.

(** [ModelRouter(config_path)] *)
Definition init (path : string) (file : option Config)
  : KeyError + ModelRouter :=
  load_config (mkRouter path [] [] 0%Q 50000%Q) file.

(** ** Notions used in the statements *)

(** [contains s word]: [word] occurs in [s] as a substring. *)
Definition contains (s word : string) : Prop :=
  exists before after, s = before ++ word ++ after.

(** [mentions d words]: one of [words] occurs in the lowercased [d]. *)
Definition mentions (d : string) (words : list string) : Prop :=
  exists w, In w words /\ contains (lower d) w.

(** [loaded_from model_config m]: [m] carries the fields of the
    configuration entry, with no capabilities when the entry has none. *)
Definition loaded_from (model_config : ModelConfig) (m : Model) : Prop :=
  cfg_name model_config = Some (name m) /\
  cfg_type model_config = Some (type m) /\
  cfg_cost_per_1m_tokens model_config = Some (cost_per_1m_tokens m) /\
  cfg_max_context model_config = Some (max_context m) /\
  cfg_priority model_config = Some (priority m) /\
  capabilities m = match cfg_capabilities model_config with
                   | Some caps => caps
                   | None => []
                   end.

(** The [models] mapping of a configuration, [{}] when it has none. *)
Definition models_of (config : Config) : dict ModelConfig :=
  match cfg_models config with
  | Some ms => ms
  | None => []
  end.

(** [self.budget_spent_today < self.daily_limit]: the budget gate of
    [route_task] lets the task through. *)
Definition within_budget (self : ModelRouter) : Prop :=
  (budget_spent_today self < daily_limit self)%Q.

(** The matching condition in the words of the specification: a filter is
    absent or equals the field of the task. *)
Definition spec_filter (v : option string) (s : string) : Prop :=
  v = None \/ v = Some s.

Definition spec_rule_matches (rule : RoutingRule) (task : Task) : Prop :=
  spec_filter (when_task_type (when_of rule)) (task_type task) /\
  spec_filter (when_complexity (when_of rule)) (complexity task).

(** The matching condition of the code: a filter that is absent or the empty
    string does not constrain the task. *)
Definition filter_passes (v : option string) (s : string) : Prop :=
  v = None \/ v = Some "" \/ v = Some s.

Definition rule_matches (rule : RoutingRule) (task : Task) : Prop :=
  filter_passes (when_task_type (when_of rule)) (task_type task) /\
  filter_passes (when_complexity (when_of rule)) (complexity task).

(** The [reasoning] text a rule contributes to a decision. *)
Definition reasoning_text (rule : RoutingRule) : string :=
  match reasoning rule with
  | Some r => r
  | None => "No reasoning provided"
  end.


(** ** Sample configurations *)

Module Sample.

Definition chat_model (n : string) (cost : Z) : Model :=
  mkModel n ["chat"] cost 8192 1 [].

Definition chat_task : Task := new_Task "Chat with me" "chat" "medium".

Definition when_type (t : string) : option When :=
  Some (mkWhen (Some t) None).

(** One rule for chat tasks, naming a registered model. *)
Definition rule_m1 : RoutingRule :=
  mkRule (when_type "chat") (Some "m1") None (Some "r1").

Definition router_m1 (spent : Q) : ModelRouter :=
  mkRouter "config/routing.yaml" [("m1", chat_model "Model One" 10)]
           [rule_m1] spent 50000.



(** Two chat models and no rule. *)
Definition router_ab (spent : Q) : ModelRouter :=
  mkRouter "config/routing.yaml"
           [("a", chat_model "Model A" 5); ("b", chat_model "Model B" 2)]
           [] spent 50000.

(** A rule whose [task_type] filter is the empty string, before a rule
    for chat tasks. *)
Definition rule_blank : RoutingRule :=
  mkRule (when_type "") (Some "a") None (Some "first").

Definition rule_chat : RoutingRule :=
  mkRule (when_type "chat") (Some "b") None (Some "second").

Definition router_blank : ModelRouter :=
  mkRouter "config/routing.yaml"
           [("a", chat_model "Model A" 5); ("b", chat_model "Model B" 2)]
           [rule_blank; rule_chat] 0 50000.

(** Three rules: one for image tasks, one for chat tasks, one without
    [when]. *)
Definition rule_image : RoutingRule :=
  mkRule (when_type "image") (Some "a") None (Some "images").

Definition rule_any : RoutingRule :=
  mkRule None (Some "a") None (Some "catch-all").

Definition router_three : ModelRouter :=
  mkRouter "config/routing.yaml"
           [("a", chat_model "Model A" 5); ("b", chat_model "Model B" 2)]
           [rule_image; rule_chat; rule_any] 0 50000.

(** Two chat models and one rule, for image tasks only. *)
Definition router_image_only : ModelRouter :=
  mkRouter "config/routing.yaml"
           [("a", chat_model "Model A" 5); ("b", chat_model "Model B" 2)]
           [rule_image] 0 50000.



(** No model and no rule. *)
Definition router_empty (spent : Q) : ModelRouter :=
  mkRouter "config/routing.yaml" [] [] spent 50000.

(** A configuration with two models, the second without capabilities, one
    rule and a limit of 100. *)
Definition config_two : Config :=
  mkConfig
    (Some (mkBudgetConfig (Some 100)))
    (Some [ ("a", mkModelConfig (Some "Model A") (Some ["chat"]) (Some 5%Z)
                    (Some 8192%Z) (Some 1%Z) (Some ["fast"]));
            ("b", mkModelConfig (Some "Model B") (Some ["chat"; "data"])
                    (Some 2%Z) (Some 4096%Z) (Some 2%Z) None) ])
    (Some [rule_chat]).

(** A configuration whose only model has no [priority]. *)
Definition config_broken : Config :=
  mkConfig None
    (Some [ ("a", mkModelConfig (Some "Model A") (Some ["chat"]) (Some 5%Z)
                    (Some 8192%Z) None None) ])
    None.

(** One model "x" and one rule for chat tasks that names it, on Python
    numbers. *)
Definition rule_x : RoutingRule :=
  mkRule (when_type "chat") (Some "x") None (Some "r1").

Definition router64_x (cost : Z) (spent limit : pynum) : Router64 :=
  mkRouter64 "config/routing.yaml" [("x", chat_model "Model X" cost)]
             [rule_x] spent limit.


End Sample.

(** * Properties *)

(** ** Strings *)

Lemma starts_with_spec (word s : string) :
  starts_with word s = true <-> exists after, s = word ++ after.
Proof.
  revert s; induction word as [|a word IH]; intros s; simpl.
  - split; [intros _; now exists s | reflexivity].
  - destruct s as [|b s].
    + split; [discriminate | intros [after H]; discriminate H].
    + rewrite andb_true_iff, Ascii.eqb_eq, IH. split.
      * intros [-> [after ->]]. now exists after.
      * intros [after H]. injection H as -> ->. split; [reflexivity | now exists after].
Qed.

Lemma str_in_spec (word s : string) :
  str_in word s = true <-> contains s word.
Proof.
  unfold contains. induction s as [|c s IH]; simpl.
  - rewrite orb_false_r, starts_with_spec. split.
    + intros [after H]. now exists "", after.
    + intros [before [after H]]. destruct before; [now exists after | discriminate H].
  - rewrite orb_true_iff, IH.
    change (match word with
            | "" => true
            | String a word' => (a =? c)%char && starts_with word' s
            end) with (starts_with word (String c s)).
    rewrite starts_with_spec. split.
    + intros [[after H] | [before [after H]]].
      * now exists "", after.
      * exists (String c before), after. simpl. now rewrite H.
    + intros [before [after H]]. destruct before as [|c' before].
      * left. now exists after.
      * right. simpl in H. injection H as _ ->. now exists before, after.
Qed.

Lemma any_in_spec (words : list string) (desc : string) :
  any_in words desc = true <-> exists word, In word words /\ contains desc word.
Proof.
  unfold any_in. rewrite existsb_exists.
  split; intros [w [Hin H]]; exists w; (split; [exact Hin | now apply str_in_spec]).
Qed.

Lemma any_in_false (words : list string) (desc : string) :
  any_in words desc = false <->
  forall word, In word words -> ~ contains desc word.
Proof.
  rewrite <- not_true_iff_false, any_in_spec. split.
  - intros H w Hin Hc. apply H. now exists w.
  - intros H [w [Hin Hc]]. exact (H w Hin Hc).
Qed.

Lemma lower_app (a b : string) : lower (a ++ b) = lower a ++ lower b.
Proof.
  induction a as [|c a IH]; simpl; [reflexivity | now rewrite IH].
Qed.

(** A word without capital letters that occurs in a description still
    occurs in it after lowercasing. *)
Lemma contains_lower (s word : string) :
  lower word = word -> contains s word -> contains (lower s) word.
Proof.
  intros Hw [before [after ->]].
  exists (lower before), (lower after).
  now rewrite !lower_app, Hw.
Qed.

(** ** [classify_task] *)

Lemma any_in_app (l1 l2 : list string) (desc : string) :
  any_in (l1 ++ l2) desc = any_in l1 desc || any_in l2 desc.
Proof. apply existsb_app. Qed.

Lemma classify_task_description (d : string) :
  description (classify_task d) = d.
Proof. reflexivity. Qed.

(** C3, as stated, fails: the type pass tests three keyword groups before the
    one of "architecture", and the complexity pass tests "simple", "basic",
    "easy" before it.  Both descriptions below contain "architecture". *)
Lemma classify_task_architecture_overridden :
  contains "implement the architecture" "architecture" /\
  task_type (classify_task "implement the architecture") = "code_simple" /\
  contains "a simple architecture" "architecture" /\
  complexity (classify_task "a simple architecture") = "low".
Proof.
  repeat split.
  - now exists "implement the ", "".
  - now exists "a simple ", "".
Qed.

(** C3 (amended): for a description that contains "architecture",
    [classify_task] gives [task_type = "code_complex"] exactly when the
    lowercased description contains no keyword of the three groups tested
    before, and [complexity = "high"] exactly when it contains none of
    "simple", "basic", "easy". *)
Theorem classify_task_architecture (d : string) :
  contains d "architecture" ->
  (task_type (classify_task d) = "code_complex" <->
   forall w,
     In w ["write code"; "create function"; "implement";
           "review code"; "refactor"; "audit";
           "debug"; "fix error"; "solve bug"] ->
     ~ contains (lower d) w) /\
  (complexity (classify_task d) = "high" <->
   forall w, In w ["simple"; "basic"; "easy"] -> ~ contains (lower d) w).
Proof.
  intros Hd.
  assert (Harch : str_in "architecture" (lower d) = true).
  { apply str_in_spec, contains_lower; [reflexivity | exact Hd]. }
  rewrite <- !any_in_false.
  change ["write code"; "create function"; "implement";
          "review code"; "refactor"; "audit";
          "debug"; "fix error"; "solve bug"]
    with (["write code"; "create function"; "implement"] ++
          ["review code"; "refactor"; "audit"] ++
          ["debug"; "fix error"; "solve bug"])%list.
  rewrite !any_in_app.
  unfold classify_task, new_Task; cbn [task_type complexity].
  assert (H4 : any_in ["architecture"; "design system"; "scale"] (lower d) = true).
  { unfold any_in; cbn [existsb]. now rewrite Harch. }
  assert (H5 : any_in ["complex"; "advanced"; "architecture"] (lower d) = true).
  { unfold any_in; cbn [existsb]. now rewrite Harch, !orb_true_r. }
  rewrite H4, H5.
  split.
  - destruct (any_in ["write code"; "create function"; "implement"] (lower d));
    [ split; discriminate | ].
    destruct (any_in ["review code"; "refactor"; "audit"] (lower d));
    [ split; discriminate | ].
    destruct (any_in ["debug"; "fix error"; "solve bug"] (lower d));
    [ split; discriminate | ].
    split; reflexivity.
  - destruct (any_in ["simple"; "basic"; "easy"] (lower d));
    split; (discriminate || reflexivity).
Qed.

Lemma classify_task_architecture_witness :
  contains "Design a microservice architecture for a chat application"
           "architecture" /\
  task_type (classify_task
    "Design a microservice architecture for a chat application")
  = "code_complex" /\
  complexity (classify_task
    "Design a microservice architecture for a chat application")
  = "high".
Proof.
  assert (H : contains
                "Design a microservice architecture for a chat application"
                "architecture").
  { now exists "Design a microservice ", " for a chat application". }
  split; [exact H | ].
  destruct (classify_task_architecture _ H) as [[_ Htype] [_ Hcomplexity]].
  split; [apply Htype | apply Hcomplexity];
    apply any_in_false; reflexivity.
Defined.

(** ** The budget gate *)

Lemma budget_exceeded_true (self : ModelRouter) :
  budget_exceeded self = true <->
  (budget_spent_today self >= daily_limit self)%Q.
Proof. unfold budget_exceeded. apply Qle_bool_iff. Qed.

Lemma budget_exceeded_false (self : ModelRouter) :
  budget_exceeded self = false <-> within_budget self.
Proof.
  unfold within_budget.
  rewrite <- not_true_iff_false, budget_exceeded_true.
  split; [apply Qnot_le_lt | apply Qlt_not_le].
Qed.

(** C1: once [budget_spent_today >= daily_limit], [route_task] returns the
    blocked decision (status, reason and suggestion, nothing else) for every
    task, registry and rule list, and neither looks at a rule nor selects a
    model. *)
Theorem route_task_blocked (self : ModelRouter) (task : Task) :
  (budget_spent_today self >= daily_limit self)%Q ->
  route_task self task =
    [ ("status", PyStr "blocked");
      ("reason", PyStr "Daily budget exceeded");
      ("suggestion", PyStr "Wait for budget reset or increase limit") ] /\
  route_task_events self task = [].
Proof.
  intros H. apply budget_exceeded_true in H.
  unfold route_task, route_task_events, route_task_run.
  rewrite H. split; reflexivity.
Qed.

Lemma route_task_blocked_witness :
  (budget_spent_today (Sample.router_m1 50000)
   >= daily_limit (Sample.router_m1 50000))%Q /\
  dict_get "status" (route_task (Sample.router_m1 50000) Sample.chat_task)
  = Some (PyStr "blocked") /\
  route_task_events (Sample.router_m1 50000) Sample.chat_task = [].
Proof.
  assert (H : (budget_spent_today (Sample.router_m1 50000)
               >= daily_limit (Sample.router_m1 50000))%Q).
  { apply Qle_bool_iff. reflexivity. }
  split; [exact H | ].
  destruct (route_task_blocked (Sample.router_m1 50000) Sample.chat_task H)
    as [Hd He].
  split; [rewrite Hd; reflexivity | exact He].
Defined.

(** ** Rule matching *)

(** One filter of the loop body: the guard of a [continue] is false. *)
Lemma filter_guard_spec (v : option string) (s : string) :
  truthy v && negb (get_eqb v s) = false <-> filter_passes v s.
Proof.
  unfold filter_passes. destruct v as [x|]; simpl.
  - destruct (String.eqb_spec x "") as [->|Hx]; simpl.
    + split; [now right; left | reflexivity].
    + destruct (String.eqb_spec x s) as [->|Hs]; simpl.
      * split; [now right; right | reflexivity].
      * split; [discriminate | ].
        intros [H | [H | H]]; [discriminate | | ]; injection H as ->;
          contradiction.
  - split; [now left | reflexivity].
Qed.

Lemma rule_applies_spec (rule : RoutingRule) (task : Task) :
  rule_applies rule task = true <-> rule_matches rule task.
Proof.
  unfold rule_applies, rule_matches.
  rewrite <- !filter_guard_spec.
  destruct (truthy (when_task_type (when_of rule)) &&
            negb (get_eqb (when_task_type (when_of rule)) (task_type task)));
  destruct (truthy (when_complexity (when_of rule)) &&
            negb (get_eqb (when_complexity (when_of rule)) (complexity task)));
  intuition congruence.
Qed.

Lemma rule_applies_false (rule : RoutingRule) (task : Task) :
  rule_applies rule task = false <-> ~ rule_matches rule task.
Proof. now rewrite <- rule_applies_spec, not_true_iff_false. Qed.

(** A rule that matches in the words of the specification is returned from
    by the loop; the converse fails on empty-string filters. *)
Lemma spec_rule_matches_applies (rule : RoutingRule) (task : Task) :
  spec_rule_matches rule task -> rule_applies rule task = true.
Proof.
  intros [Ht Hc]. apply rule_applies_spec.
  split; [destruct Ht | destruct Hc]; unfold filter_passes; auto.
Qed.

(** The loop returns from the first rule that passes both filters, after
    looking at it and at the rules before it, and at no other. *)
Lemma scan_rules_first (task : Task) (skipped rest : list RoutingRule)
  (rule : RoutingRule) :
  (forall r, In r skipped -> rule_applies r task = false) ->
  rule_applies rule task = true ->
  scan_rules (skipped ++ rule :: rest) task =
    (map EvalRule skipped ++ [EvalRule rule], Some rule)%list.
Proof.
  induction skipped as [|r skipped IH]; intros Hskip Hrule; simpl.
  - now rewrite Hrule.
  - rewrite (Hskip r (or_introl eq_refl)), IH; [reflexivity | | exact Hrule].
    intros r' Hin. apply Hskip. now right.
Qed.

Lemma scan_rules_none (task : Task) (rules : list RoutingRule) :
  (forall r, In r rules -> rule_applies r task = false) ->
  scan_rules rules task = (map EvalRule rules, None).
Proof.
  induction rules as [|r rules IH]; intros H; simpl; [reflexivity | ].
  rewrite (H r (or_introl eq_refl)), IH; [reflexivity | ].
  intros r' Hin. apply H. now right.
Qed.


(** On the path past the budget gate the result is that of the loop. *)
Lemma route_task_run_within (self : ModelRouter) (task : Task) :
  within_budget self ->
  route_task_run self task =
    let (scanned, found) := scan_rules (routing_rules self) task in
    let (evs, decision) :=
      match found with
      | Some rule => rule_decision self task rule
      | None => default_decision self task
      end in
    ((scanned ++ evs)%list, decision).
Proof.
  intros H. apply budget_exceeded_false in H.
  unfold route_task_run. now rewrite H.
Qed.


(** The run of [route_task] when the first rule that matches is [rule]. *)
Lemma route_task_run_first (self : ModelRouter) (task : Task)
  (skipped rest : list RoutingRule) (rule : RoutingRule) :
  within_budget self ->
  routing_rules self = (skipped ++ rule :: rest)%list ->
  (forall r, In r skipped -> ~ rule_matches r task) ->
  rule_matches rule task ->
  route_task_run self task =
    ((map EvalRule skipped ++ EvalRule rule ::
        fst (rule_decision self task rule))%list,
     snd (rule_decision self task rule)).
Proof.
  intros Hbudget Hrules Hskip Hrule.
  assert (Hscan : scan_rules (routing_rules self) task =
                  (map EvalRule skipped ++ [EvalRule rule], Some rule)%list).
  { rewrite Hrules. apply scan_rules_first.
    - intros r Hin. now apply rule_applies_false, Hskip.
    - now apply rule_applies_spec. }
  rewrite (route_task_run_within _ _ Hbudget), Hscan.
  destruct (rule_decision self task rule) as [evs d]; simpl.
  now rewrite <- app_assoc.
Qed.

(** The run of [route_task] when no rule matches. *)
Lemma route_task_run_default (self : ModelRouter) (task : Task) :
  within_budget self ->
  (forall r, In r (routing_rules self) -> ~ rule_matches r task) ->
  route_task_run self task =
    ((map EvalRule (routing_rules self) ++ [SelectCheapest task])%list,
     snd (default_decision self task)).
Proof.
  intros Hbudget Hnone.
  rewrite (route_task_run_within _ _ Hbudget), scan_rules_none; [reflexivity | ].
  intros r Hin. now apply rule_applies_false, Hnone.
Qed.

(** Fields of the decision built from a rule. *)
Lemma rule_decision_fields (self : ModelRouter) (task : Task)
  (rule : RoutingRule) :
  dict_get "status" (snd (rule_decision self task rule))
  = Some (PyStr "routed") /\
  dict_get "reasoning" (snd (rule_decision self task rule))
  = Some (PyStr (reasoning_text rule)) /\
  dict_get "budget_remaining" (snd (rule_decision self task rule))
  = Some (PyNum (daily_limit self - budget_spent_today self)).
Proof.
  unfold rule_decision.
  destruct (match use rule with
            | Some id => dict_get id (models self)
            | None => None
            end); repeat split.
Qed.


(** C2, as stated, fails: a rule whose [task_type] filter is the empty string
    is committed to although the filter is present and differs from the
    task's type.  Of the two rules below the specification's condition holds
    for the second only, and [route_task] answers with the first. *)
Lemma route_task_commits_to_blank_filter :
  within_budget Sample.router_blank /\
  routing_rules Sample.router_blank = [Sample.rule_blank; Sample.rule_chat] /\
  ~ spec_rule_matches Sample.rule_blank Sample.chat_task /\
  spec_rule_matches Sample.rule_chat Sample.chat_task /\
  dict_get "reasoning" (route_task Sample.router_blank Sample.chat_task)
  = Some (PyStr "first") /\
  dict_get "reasoning"
    (snd (rule_decision Sample.router_blank Sample.chat_task Sample.rule_chat))
  = Some (PyStr "second").
Proof.
  repeat split.
  - intros [[H | H] _]; discriminate H.
  - now right.
  - now left.
Qed.

(** C2 (amended): when [budget_spent_today < daily_limit], [route_task]
    commits to the first rule, in list order, both of whose filters pass,
    where a filter passes when it is absent, is the empty string, or equals
    the task's field; the loop returns from a rule exactly when both filters
    pass, it looks at no rule after that one, and the decision is the one
    built from that rule, whatever rules follow. *)
Theorem route_task_first_match (self : ModelRouter) (task : Task)
  (skipped rest : list RoutingRule) (rule : RoutingRule) :
  within_budget self ->
  routing_rules self = (skipped ++ rule :: rest)%list ->
  (forall r, In r skipped -> ~ rule_matches r task) ->
  rule_matches rule task ->
  (forall r, rule_applies r task = true <-> rule_matches r task) /\
  route_task self task = snd (rule_decision self task rule) /\
  route_task_events self task =
    (map EvalRule skipped ++ EvalRule rule ::
       fst (rule_decision self task rule))%list.
Proof.
  intros Hbudget Hrules Hskip Hrule.
  split; [intros r; apply rule_applies_spec | ].
  unfold route_task, route_task_events.
  rewrite (route_task_run_first _ _ _ _ _ Hbudget Hrules Hskip Hrule).
  split; reflexivity.
Qed.

Lemma route_task_first_match_witness :
  dict_get "reasoning" (route_task Sample.router_three Sample.chat_task)
  = Some (PyStr "second") /\
  route_task_events Sample.router_three Sample.chat_task
  = [EvalRule Sample.rule_image; EvalRule Sample.rule_chat].
Proof.
  assert (Hbudget : within_budget Sample.router_three) by reflexivity.
  assert (Hskip : forall r, In r [Sample.rule_image] ->
                            ~ rule_matches r Sample.chat_task).
  { intros r [<- | []]. apply rule_applies_false. reflexivity. }
  assert (Hrule : rule_matches Sample.rule_chat Sample.chat_task).
  { apply rule_applies_spec. reflexivity. }
  destruct (route_task_first_match Sample.router_three Sample.chat_task
              [Sample.rule_image] [Sample.rule_any] Sample.rule_chat
              Hbudget eq_refl Hskip Hrule) as [_ [Hd He]].
  split; [rewrite Hd | rewrite He]; reflexivity.
Defined.

(** The decision built from a rule does not depend on its [when] part. *)
Lemma rule_decision_when (self : ModelRouter) (task : Task)
  (w w' : option When) (u f r : option string) :
  rule_decision self task (mkRule w u f r) =
  rule_decision self task (mkRule w' u f r).
Proof. reflexivity. Qed.

(** Replacing a rule by one that passes the same tasks and has the same
    [use], [fallback] and [reasoning] does not change the decision. *)
Lemma route_task_replace_rule (cp : string) (ms : dict Model)
  (spent limit : Q) (task : Task) (pre post : list RoutingRule)
  (w w' : option When) (u f r : option string) :
  rule_applies (mkRule w u f r) task = rule_applies (mkRule w' u f r) task ->
  route_task (mkRouter cp ms (pre ++ mkRule w u f r :: post) spent limit) task =
  route_task (mkRouter cp ms (pre ++ mkRule w' u f r :: post) spent limit) task.
Proof.
  intros Heq. unfold route_task, route_task_run, budget_exceeded; simpl.
  destruct (Qle_bool limit spent); [reflexivity | ].
  induction pre as [|p pre IH]; simpl.
  - rewrite Heq. destruct (rule_applies (mkRule w' u f r) task); simpl.
    + rewrite (rule_decision_when _ _ w w').
      now destruct (rule_decision _ task (mkRule w' u f r)).
    + destruct (scan_rules post task) as [evs [rule|]]; simpl.
      * unfold rule_decision; simpl.
        now destruct (match use rule with
                      | Some id => dict_get id ms
                      | None => None
                      end).
      * reflexivity.
  - destruct (rule_applies p task); simpl.
    + unfold rule_decision; simpl.
      now destruct (match use p with
                    | Some id => dict_get id ms
                    | None => None
                    end).
    + destruct (scan_rules (pre ++ mkRule w u f r :: post) task)
        as [evs1 [r1|]];
      destruct (scan_rules (pre ++ mkRule w' u f r :: post) task)
        as [evs2 [r2|]]; simpl in *.
      * destruct (rule_decision _ task r1) as [e1 d1] eqn:E1.
        destruct (rule_decision _ task r2) as [e2 d2] eqn:E2.
        simpl in *. exact IH.
      * destruct (rule_decision _ task r1) as [e1 d1] eqn:E1.
        simpl in *. exact IH.
      * destruct (rule_decision _ task r2) as [e2 d2] eqn:E2.
        simpl in *. exact IH.
      * exact IH.
Qed.

(** C10: an empty-string [task_type] (or [complexity]) filter behaves as an
    absent one: the rule passes the same tasks, so passes every task whatever
    its [task_type] (or [complexity]), and [route_task] returns the same
    decision as with the filter removed. *)
Theorem empty_filter_as_absent (t c u f r : option string) (task : Task) :
  (rule_applies (mkRule (Some (mkWhen (Some "") c)) u f r) task =
   rule_applies (mkRule (Some (mkWhen None c)) u f r) task) /\
  (rule_applies (mkRule (Some (mkWhen t (Some ""))) u f r) task =
   rule_applies (mkRule (Some (mkWhen t None)) u f r) task) /\
  (forall task',
     complexity task' = complexity task ->
     rule_applies (mkRule (Some (mkWhen (Some "") c)) u f r) task' =
     rule_applies (mkRule (Some (mkWhen (Some "") c)) u f r) task) /\
  (forall task',
     task_type task' = task_type task ->
     rule_applies (mkRule (Some (mkWhen t (Some ""))) u f r) task' =
     rule_applies (mkRule (Some (mkWhen t (Some ""))) u f r) task) /\
  rule_applies (mkRule (Some (mkWhen (Some "") (Some ""))) u f r) task = true /\
  (forall cp ms spent limit pre post,
     route_task
       (mkRouter cp ms
          (pre ++ mkRule (Some (mkWhen (Some "") c)) u f r :: post)
          spent limit) task =
     route_task
       (mkRouter cp ms
          (pre ++ mkRule (Some (mkWhen None c)) u f r :: post)
          spent limit) task) /\
  (forall cp ms spent limit pre post,
     route_task
       (mkRouter cp ms
          (pre ++ mkRule (Some (mkWhen t (Some ""))) u f r :: post)
          spent limit) task =
     route_task
       (mkRouter cp ms
          (pre ++ mkRule (Some (mkWhen t None)) u f r :: post)
          spent limit) task).
Proof.
  assert (H1 : forall task0,
             rule_applies (mkRule (Some (mkWhen (Some "") c)) u f r) task0 =
             rule_applies (mkRule (Some (mkWhen None c)) u f r) task0)
    by reflexivity.
  assert (H2 : forall task0,
             rule_applies (mkRule (Some (mkWhen t (Some ""))) u f r) task0 =
             rule_applies (mkRule (Some (mkWhen t None)) u f r) task0).
  { intros task0. unfold rule_applies; simpl.
    now destruct (truthy t && negb (get_eqb t (task_type task0))). }
  split; [apply H1 | ].
  split; [apply H2 | ].
  split; [intros task' Hc; unfold rule_applies; simpl; now rewrite Hc | ].
  split; [intros task' Ht; unfold rule_applies; simpl; now rewrite Ht | ].
  split; [reflexivity | ].
  split; intros; apply route_task_replace_rule; [apply H1 | apply H2].
Qed.

(** ** Cheapest capable model *)

Section MinByCost.

Local Open Scope Z_scope.
Local Abbreviation cost := cost_per_1m_tokens.

(** The running best of [min] splits the list read so far: strictly
    dearer models before it, models at least as dear after it. *)
Lemma fold_min_step_split (l : list Model) (m : Model) :
  exists before after,
    (m :: l = before ++ fold_left min_step l m :: after)%list /\
    (forall x, In x before -> cost (fold_left min_step l m) < cost x) /\
    (forall x, In x after -> cost (fold_left min_step l m) <= cost x).
Proof.
  revert m. induction l as [|x l IH]; intros m.
  - exists [], []. repeat split; intros ? [].
  - cbn [fold_left]. destruct (IH (min_step m x)) as [before [after [E [Hb Ha]]]].
    set (best := fold_left min_step l (min_step m x)) in *.
    assert (Hhead : cost best <= cost (min_step m x)).
    { assert (Hin : In (min_step m x) (before ++ best :: after)%list)
        by (rewrite <- E; now left).
      apply in_app_or in Hin. destruct Hin as [Hin | [<- | Hin]].
      - specialize (Hb _ Hin). lia.
      - lia.
      - now apply Ha. }
    unfold min_step in E, Hhead.
    destruct (Z.ltb_spec (cost x) (cost m)) as [Hlt | Hge].
    + exists (m :: before), after. rewrite <- app_comm_cons, <- E.
      repeat split; [ | exact Ha].
      intros y [<- | Hin]; [lia | now apply Hb].
    + destruct before as [|b before]; simpl in E.
      * injection E as Em El. exists [], (x :: after).
        rewrite <- Em, El. repeat split; [intros ? [] | ].
        intros y [<- | Hin]; [lia | ].
        specialize (Ha _ Hin). rewrite <- Em in Ha. exact Ha.
      * injection E as Em El. subst b.
        exists (m :: x :: before), after. rewrite El.
        repeat split; [ | exact Ha].
        assert (Hm : cost best < cost m) by (apply Hb; now left).
        intros y [<- | [<- | Hin]]; [lia | lia | apply Hb; now right].
Qed.

Lemma min_by_cost_spec (l : list Model) :
  match min_by_cost l with
  | None => l = []
  | Some best =>
      exists before after,
        (l = before ++ best :: after)%list /\
        (forall x, In x before -> cost best < cost x) /\
        (forall x, In x after -> cost best <= cost x)
  end.
Proof.
  destruct l as [|m l]; simpl; [reflexivity | apply fold_min_step_split].
Qed.

End MinByCost.

Lemma capable_of_spec (task : Task) (m : Model) :
  capable_of task m = true <-> In (task_type task) (type m).
Proof.
  unfold capable_of. rewrite existsb_exists. split.
  - intros [t [Hin Heq]]. apply String.eqb_eq in Heq. now subst.
  - intros Hin. exists (task_type task). split; [exact Hin | apply String.eqb_refl].
Qed.

(** C6: [find_cheapest_model] returns none exactly when no registered model
    lists the task's type; otherwise it returns a registered model that lists
    it and whose cost is minimal among those that do.  The result is a
    function of the registry and of the task's type alone, and among the
    capable models of minimal cost it is the first in registry order. *)
Theorem find_cheapest_model_spec (self : ModelRouter) (task : Task) :
  match find_cheapest_model self task with
  | None =>
      forall m, In m (dict_values (models self)) ->
                ~ In (task_type task) (type m)
  | Some best =>
      In best (dict_values (models self)) /\
      In (task_type task) (type best) /\
      (forall m, In m (dict_values (models self)) ->
                 In (task_type task) (type m) ->
                 (cost_per_1m_tokens best <= cost_per_1m_tokens m)%Z) /\
      (exists before after,
         filter (capable_of task) (dict_values (models self)) =
           (before ++ best :: after)%list /\
         forall m, In m before ->
                   (cost_per_1m_tokens best < cost_per_1m_tokens m)%Z)
  end /\
  (forall self' task',
     models self' = models self ->
     task_type task' = task_type task ->
     find_cheapest_model self' task' = find_cheapest_model self task).
Proof.
  split.
  - unfold find_cheapest_model.
    pose proof (min_by_cost_spec
                  (filter (capable_of task) (dict_values (models self)))) as H.
    destruct (min_by_cost _) as [best|].
    + destruct H as [before [after [E [Hb Ha]]]].
      assert (Hin : In best (filter (capable_of task)
                               (dict_values (models self)))).
      { rewrite E. apply in_or_app. right. now left. }
      apply filter_In in Hin. destruct Hin as [Hin Hcap].
      split; [exact Hin | ].
      split; [now apply capable_of_spec | ].
      split; [ | now exists before, after].
      intros m Hm Hty.
      assert (Hm' : In m (filter (capable_of task)
                            (dict_values (models self)))).
      { apply filter_In. split; [exact Hm | now apply capable_of_spec]. }
      rewrite E in Hm'. apply in_app_or in Hm'.
      destruct Hm' as [Hm' | [<- | Hm']].
      * specialize (Hb _ Hm'). lia.
      * lia.
      * now apply Ha.
    + intros m Hm Hty.
      assert (Hm' : In m (filter (capable_of task)
                            (dict_values (models self)))).
      { apply filter_In. split; [exact Hm | now apply capable_of_spec]. }
      rewrite H in Hm'. exact Hm'.
  - intros self' task' Hmodels Htype.
    unfold find_cheapest_model, capable_of. now rewrite Hmodels, Htype.
Qed.

(** The example of the specification: of two chat models the cheaper one is
    selected when no rule is configured. *)
Example route_task_selects_cheaper :
  find_cheapest_model (Sample.router_ab 0) Sample.chat_task
  = Some (Sample.chat_model "Model B" 2) /\
  dict_get "selected_model" (route_task (Sample.router_ab 0) Sample.chat_task)
  = Some (PyStr "Model B").
Proof. split; reflexivity. Qed.

Lemma find_cheapest_model_none (self : ModelRouter) (task : Task) :
  find_cheapest_model self task = None <->
  forall m, In m (dict_values (models self)) ->
            ~ In (task_type task) (type m).
Proof.
  unfold find_cheapest_model.
  pose proof (min_by_cost_spec
                (filter (capable_of task) (dict_values (models self)))) as H.
  destruct (min_by_cost _) as [best|].
  - destruct H as [before [after [E _]]]. split; [discriminate | ].
    intros Hno. exfalso.
    assert (Hin : In best (filter (capable_of task)
                             (dict_values (models self)))).
    { rewrite E. apply in_or_app. right. now left. }
    apply filter_In in Hin. destruct Hin as [Hin Hcap].
    apply (Hno best Hin). now apply capable_of_spec.
  - split; [ | reflexivity]. intros _ m Hm Hty.
    assert (Hm' : In m (filter (capable_of task)
                          (dict_values (models self)))).
    { apply filter_In. split; [exact Hm | now apply capable_of_spec]. }
    rewrite H in Hm'. exact Hm'.
Qed.

(** ** Decisions of [route_task] past the budget gate *)



(** C5: past the budget gate, when no rule matches the task (an empty
    rule list included), [route_task] returns a
    routed decision with the fixed reasoning text, whose selected model is
    the name of the cheapest capable model, or none exactly when no
    registered model is capable (an empty registry included); the decision
    has no [budget_remaining] key. *)
Theorem route_task_no_rule (self : ModelRouter) (task : Task) :
  within_budget self ->
  (forall r, In r (routing_rules self) -> ~ rule_matches r task) ->
  route_task self task =
    [ ("status", PyStr "routed");
      ("task", PyStr (description task));
      ("task_type", PyStr (task_type task));
      ("complexity", PyStr (complexity task));
      ("selected_model",
         opt_pyval (fun m => PyStr (name m)) (find_cheapest_model self task));
      ("reasoning", PyStr "No matching rule - using cheapest option");
      ("estimated_cost",
         opt_pyval (fun m => PyInt (cost_per_1m_tokens m))
           (find_cheapest_model self task)) ] /\
  dict_get "budget_remaining" (route_task self task) = None /\
  (dict_get "selected_model" (route_task self task) = Some PyNone <->
   forall m, In m (dict_values (models self)) ->
             ~ In (task_type task) (type m)).
Proof.
  intros Hbudget Hnone.
  unfold route_task.
  rewrite (route_task_run_default _ _ Hbudget Hnone). cbn [snd default_decision].
  split; [reflexivity | split; [reflexivity | ]].
  cbn. pose proof (find_cheapest_model_none self task) as H.
  destruct (find_cheapest_model self task) as [best|]; cbn.
  - split; [discriminate | intros Hno; now apply H in Hno].
  - split; [intros _; now apply H | reflexivity].
Qed.

Lemma route_task_no_rule_witness :
  (within_budget (example_router "config/routing.yaml") /\
   dict_get "status"
     (route_task (example_router "config/routing.yaml") Sample.chat_task)
   = Some (PyStr "routed") /\
   dict_get "selected_model"
     (route_task (example_router "config/routing.yaml") Sample.chat_task)
   = Some PyNone /\
   dict_get "budget_remaining"
     (route_task (example_router "config/routing.yaml") Sample.chat_task)
   = None) /\
  (within_budget Sample.router_image_only /\
   dict_get "status" (route_task Sample.router_image_only Sample.chat_task)
   = Some (PyStr "routed") /\
   dict_get "selected_model"
     (route_task Sample.router_image_only Sample.chat_task)
   = Some (PyStr "Model B") /\
   dict_get "reasoning" (route_task Sample.router_image_only Sample.chat_task)
   = Some (PyStr "No matching rule - using cheapest option") /\
   dict_get "budget_remaining"
     (route_task Sample.router_image_only Sample.chat_task)
   = None).
Proof.
  split.
  - assert (Hbudget : within_budget (example_router "config/routing.yaml"))
      by reflexivity.
    assert (Hnone : forall r,
               In r (routing_rules (example_router "config/routing.yaml")) ->
               ~ rule_matches r Sample.chat_task) by (intros r []).
    destruct (route_task_no_rule (example_router "config/routing.yaml")
                Sample.chat_task Hbudget Hnone) as [Hd [Hrem _]].
    split; [exact Hbudget | ].
    split; [rewrite Hd; reflexivity | ].
    split; [rewrite Hd; reflexivity | exact Hrem].
  - assert (Hbudget : within_budget Sample.router_image_only) by reflexivity.
    assert (Hnone : forall r,
               In r (routing_rules Sample.router_image_only) ->
               ~ rule_matches r Sample.chat_task).
    { intros r [<- | []]. apply rule_applies_false. reflexivity. }
    destruct (route_task_no_rule Sample.router_image_only
                Sample.chat_task Hbudget Hnone) as [Hd [Hrem _]].
    split; [exact Hbudget | ].
    split; [rewrite Hd; reflexivity | ].
    split; [rewrite Hd; reflexivity | ].
    split; [rewrite Hd; reflexivity | exact Hrem].
Defined.

(** The rule loop is the only place that sets [budget_remaining]. *)
Lemma route_task_budget_remaining_only (self : ModelRouter) (task : Task)
  (v : pyval) :
  dict_get "budget_remaining" (route_task self task) = Some v ->
  exists rule,
    snd (scan_rules (routing_rules self) task) = Some rule /\
    route_task self task = snd (rule_decision self task rule).
Proof.
  unfold route_task, route_task_run.
  destruct (budget_exceeded self); [discriminate | ].
  destruct (scan_rules (routing_rules self) task) as [scanned [rule|]].
  - intros _. exists rule. split; [reflexivity | ].
    now destruct (rule_decision self task rule).
  - discriminate.
Qed.

(** ** [track_cost] *)




(** * Further properties *)

(** ** The classifier *)

Lemma any_in_mentions (words : list string) (d : string) :
  any_in words (lower d) = true <-> mentions d words.
Proof. apply any_in_spec. Qed.

Lemma lower_ascii_idempotent (c : ascii) :
  lower_ascii (lower_ascii c) = lower_ascii c.
Proof.
  destruct c as [[] [] [] [] [] [] [] []]; reflexivity.
Qed.

Lemma lower_idempotent (s : string) : lower (lower s) = lower s.
Proof.
  induction s as [|c s IH]; simpl;
    [reflexivity | now rewrite lower_ascii_idempotent, IH].
Qed.

Lemma classify_task_vocabulary (d : string) :
  In (task_type (classify_task d))
     ["code_simple"; "code_review"; "debugging"; "code_complex";
      "image"; "data"; "chat"] /\
  In (complexity (classify_task d)) ["low"; "medium"; "high"].
Proof.
  unfold classify_task, new_Task; cbn [task_type complexity].
  split.
  - destruct (any_in ["write code"; "create function"; "implement"] _);
      [simpl; tauto | ].
    destruct (any_in ["review code"; "refactor"; "audit"] _);
      [simpl; tauto | ].
    destruct (any_in ["debug"; "fix error"; "solve bug"] _);
      [simpl; tauto | ].
    destruct (any_in ["architecture"; "design system"; "scale"] _);
      [simpl; tauto | ].
    destruct (any_in ["generate image"; "create picture"] _);
      [simpl; tauto | ].
    destruct (any_in ["analyze data"; "process data"] _); simpl; tauto.
  - destruct (any_in ["simple"; "basic"; "easy"] _); [simpl; tauto | ].
    destruct (any_in ["complex"; "advanced"; "architecture"] _);
      simpl; tauto.
Qed.

(** X1: the type pass is a priority list.  Each task type is returned exactly
    when the description mentions a keyword of its group and none of the
    groups tested before it; "chat" exactly when it mentions none at all. *)
Theorem classify_task_type_table (d : string) :
  (task_type (classify_task d) = "code_simple" <->
   mentions d ["write code"; "create function"; "implement"]) /\
  (task_type (classify_task d) = "code_review" <->
   ~ mentions d ["write code"; "create function"; "implement"] /\
   mentions d ["review code"; "refactor"; "audit"]) /\
  (task_type (classify_task d) = "debugging" <->
   ~ mentions d ["write code"; "create function"; "implement"] /\
   ~ mentions d ["review code"; "refactor"; "audit"] /\
   mentions d ["debug"; "fix error"; "solve bug"]) /\
  (task_type (classify_task d) = "code_complex" <->
   ~ mentions d ["write code"; "create function"; "implement"] /\
   ~ mentions d ["review code"; "refactor"; "audit"] /\
   ~ mentions d ["debug"; "fix error"; "solve bug"] /\
   mentions d ["architecture"; "design system"; "scale"]) /\
  (task_type (classify_task d) = "image" <->
   ~ mentions d ["write code"; "create function"; "implement"] /\
   ~ mentions d ["review code"; "refactor"; "audit"] /\
   ~ mentions d ["debug"; "fix error"; "solve bug"] /\
   ~ mentions d ["architecture"; "design system"; "scale"] /\
   mentions d ["generate image"; "create picture"]) /\
  (task_type (classify_task d) = "data" <->
   ~ mentions d ["write code"; "create function"; "implement"] /\
   ~ mentions d ["review code"; "refactor"; "audit"] /\
   ~ mentions d ["debug"; "fix error"; "solve bug"] /\
   ~ mentions d ["architecture"; "design system"; "scale"] /\
   ~ mentions d ["generate image"; "create picture"] /\
   mentions d ["analyze data"; "process data"]) /\
  (task_type (classify_task d) = "chat" <->
   ~ mentions d ["write code"; "create function"; "implement"] /\
   ~ mentions d ["review code"; "refactor"; "audit"] /\
   ~ mentions d ["debug"; "fix error"; "solve bug"] /\
   ~ mentions d ["architecture"; "design system"; "scale"] /\
   ~ mentions d ["generate image"; "create picture"] /\
   ~ mentions d ["analyze data"; "process data"]).
Proof.
  rewrite <- !any_in_mentions.
  unfold classify_task, new_Task; cbn [task_type].
  destruct (any_in ["write code"; "create function"; "implement"] (lower d));
  destruct (any_in ["review code"; "refactor"; "audit"] (lower d));
  destruct (any_in ["debug"; "fix error"; "solve bug"] (lower d));
  destruct (any_in ["architecture"; "design system"; "scale"] (lower d));
  destruct (any_in ["generate image"; "create picture"] (lower d));
  destruct (any_in ["analyze data"; "process data"] (lower d));
  repeat split; try discriminate; try reflexivity;
    intuition discriminate.
Qed.

(** X2: the complexity pass is a priority list of its own: "low" exactly
    when one of "simple", "basic", "easy" is mentioned, "high" exactly when
    none of them is and one of "complex", "advanced", "architecture" is,
    "medium" otherwise; the keywords of the type pass play no part. *)
Theorem classify_task_complexity_table (d : string) :
  (complexity (classify_task d) = "low" <->
   mentions d ["simple"; "basic"; "easy"]) /\
  (complexity (classify_task d) = "high" <->
   ~ mentions d ["simple"; "basic"; "easy"] /\
   mentions d ["complex"; "advanced"; "architecture"]) /\
  (complexity (classify_task d) = "medium" <->
   ~ mentions d ["simple"; "basic"; "easy"] /\
   ~ mentions d ["complex"; "advanced"; "architecture"]).
Proof.
  rewrite <- !any_in_mentions.
  unfold classify_task, new_Task; cbn [complexity].
  destruct (any_in ["simple"; "basic"; "easy"] (lower d));
  destruct (any_in ["complex"; "advanced"; "architecture"] (lower d));
  repeat split; try discriminate; try reflexivity;
    intuition discriminate.
Qed.

(** X3: whatever the text, [classify_task] returns a well-formed task: the
    description unchanged, one of the seven task types, one of the three
    complexities, priority "normal" and [require_fallback] set. *)
Theorem classify_task_well_formed (d : string) :
  description (classify_task d) = d /\
  In (task_type (classify_task d))
     ["code_simple"; "code_review"; "debugging"; "code_complex";
      "image"; "data"; "chat"] /\
  In (complexity (classify_task d)) ["low"; "medium"; "high"] /\
  task_priority (classify_task d) = "normal" /\
  require_fallback (classify_task d) = true.
Proof.
  destruct (classify_task_vocabulary d) as [Htype Hcomplexity].
  split; [reflexivity | ].
  split; [exact Htype | ].
  split; [exact Hcomplexity | split; reflexivity].
Qed.

(** X4: classification does not depend on letter case: a description and
    its lowercased form get the same task type and the same complexity. *)
Theorem classify_task_case_insensitive (d : string) :
  task_type (classify_task (lower d)) = task_type (classify_task d) /\
  complexity (classify_task (lower d)) = complexity (classify_task d) /\
  (forall d',
     lower d' = lower d ->
     task_type (classify_task d') = task_type (classify_task d) /\
     complexity (classify_task d') = complexity (classify_task d)).
Proof.
  unfold classify_task, new_Task; cbn [task_type complexity].
  rewrite lower_idempotent.
  split; [reflexivity | split; [reflexivity | ]].
  intros d' ->. split; reflexivity.
Qed.

(** ** The router *)

Lemma dict_get_In {V : Type} (k : string) (d : dict V) (v : V) :
  dict_get k d = Some v -> In v (dict_values d).
Proof.
  induction d as [|[k' v'] d IH]; simpl; [discriminate | ].
  destruct (k' =? k).
  - intros H. injection H as ->. now left.
  - intros H. right. now apply IH.
Qed.


Lemma scan_rules_app (task : Task) (rules extra : list RoutingRule) :
  (exists r, In r rules /\ rule_applies r task = true) ->
  scan_rules (rules ++ extra) task = scan_rules rules task.
Proof.
  induction rules as [|r rules IH]; intros [r0 [Hin Hr0]]; [destruct Hin | ].
  simpl. destruct (rule_applies r task) eqn:Hr; [reflexivity | ].
  rewrite IH; [reflexivity | ].
  destruct Hin as [<- | Hin]; [congruence | now exists r0].
Qed.








(** X9: once some rule of the list matches a task, whatever follows in the
    list plays no part: with further rules appended, [route_task] returns the
    same decision and looks at the same rules. *)
Theorem route_task_later_rules (cp : string) (ms : dict Model)
  (spent limit : Q) (rules extra : list RoutingRule) (task : Task) :
  (exists r, In r rules /\ rule_matches r task) ->
  route_task (mkRouter cp ms (rules ++ extra) spent limit) task =
  route_task (mkRouter cp ms rules spent limit) task /\
  route_task_events (mkRouter cp ms (rules ++ extra) spent limit) task =
  route_task_events (mkRouter cp ms rules spent limit) task.
Proof.
  intros [r [Hin Hr]].
  assert (Hscan : scan_rules (rules ++ extra) task = scan_rules rules task).
  { apply scan_rules_app. exists r. split; [exact Hin | ].
    now apply rule_applies_spec. }
  unfold route_task, route_task_events, route_task_run, budget_exceeded.
  cbn [routing_rules daily_limit budget_spent_today].
  destruct (Qle_bool limit spent); [split; reflexivity | ].
  rewrite Hscan.
  destruct (scan_rules rules task) as [scanned [rule|]];
    split; reflexivity.
Qed.

Lemma route_task_later_rules_witness :
  route_task
    (mkRouter "config/routing.yaml" [] ([Sample.rule_any] ++ [Sample.rule_chat])
       0 50000) Sample.chat_task =
  route_task
    (mkRouter "config/routing.yaml" [] [Sample.rule_any] 0 50000)
    Sample.chat_task.
Proof.
  apply (route_task_later_rules "config/routing.yaml" [] 0 50000
           [Sample.rule_any] [Sample.rule_chat] Sample.chat_task).
  exists Sample.rule_any. split; [now left | ].
  apply rule_applies_spec. reflexivity.
Defined.

(** X10: a rule without [when], or whose [when] has neither filter, matches
    every task, so the rules placed after it are dead: for every task the
    decision is the one obtained with those rules removed. *)
Theorem route_task_catch_all (cp : string) (ms : dict Model)
  (spent limit : Q) (pre rest : list RoutingRule) (rule : RoutingRule)
  (task : Task) :
  when rule = None \/ when rule = Some (mkWhen None None) ->
  rule_matches rule task /\
  route_task (mkRouter cp ms (pre ++ rule :: rest) spent limit) task =
  route_task (mkRouter cp ms (pre ++ [rule]) spent limit) task.
Proof.
  intros Hwhen.
  assert (Hrule : rule_matches rule task).
  { unfold rule_matches, when_of, filter_passes.
    destruct Hwhen as [-> | ->]; cbn; auto. }
  split; [exact Hrule | ].
  assert (Hscan : forall extra,
             scan_rules ((pre ++ [rule]) ++ extra) task =
             scan_rules (pre ++ [rule]) task).
  { intros extra. apply scan_rules_app. exists rule.
    split; [apply in_or_app; right; now left | now apply rule_applies_spec]. }
  specialize (Hscan rest). rewrite <- app_assoc in Hscan. cbn in Hscan.
  unfold route_task, route_task_run, budget_exceeded.
  cbn [routing_rules daily_limit budget_spent_today].
  destruct (Qle_bool limit spent); [reflexivity | ].
  rewrite Hscan.
  now destruct (scan_rules (pre ++ [rule]) task) as [scanned [r|]].
Qed.

Lemma route_task_catch_all_witness :
  rule_matches Sample.rule_any Sample.chat_task /\
  route_task
    (mkRouter "config/routing.yaml" []
       ([Sample.rule_image] ++ Sample.rule_any :: [Sample.rule_chat])
       0 50000) Sample.chat_task =
  route_task
    (mkRouter "config/routing.yaml" []
       ([Sample.rule_image] ++ [Sample.rule_any]) 0 50000) Sample.chat_task.
Proof.
  apply (route_task_catch_all "config/routing.yaml" [] 0 50000
           [Sample.rule_image] [Sample.rule_chat] Sample.rule_any
           Sample.chat_task).
  now left.
Defined.


(** ** Billing and routing *)








(** ** Loading the configuration *)

Lemma dict_get_None_keys {V : Type} (k : string) (d : dict V) :
  dict_get k d = None <-> ~ In k (map fst d).
Proof.
  induction d as [|[k' v'] d IH]; simpl.
  - split; [intros _ [] | reflexivity].
  - destruct (String.eqb_spec k' k) as [-> | Hne].
    + split; [discriminate | intros H; exfalso; apply H; now left].
    + rewrite IH. split.
      * intros H [E | Hin]; [now apply Hne | now apply H].
      * intros H Hin. apply H. now right.
Qed.

Lemma dict_get_set_same {V : Type} (k : string) (v : V) (d : dict V) :
  dict_get k (dict_set k v d) = Some v.
Proof.
  induction d as [|[k' v'] d IH]; simpl.
  - now rewrite String.eqb_refl.
  - destruct (k' =? k) eqn:E; simpl.
    + now rewrite String.eqb_refl.
    + now rewrite E.
Qed.

Lemma dict_get_set_other {V : Type} (k k' : string) (v : V) (d : dict V) :
  k' <> k -> dict_get k' (dict_set k v d) = dict_get k' d.
Proof.
  intros Hne. induction d as [|[k0 v0] d IH]; simpl.
  - destruct (String.eqb_spec k k'); [congruence | reflexivity].
  - destruct (String.eqb_spec k0 k) as [-> | Hk0]; simpl.
    + destruct (String.eqb_spec k k'); [congruence | reflexivity].
    + now rewrite IH.
Qed.

Lemma dict_set_keys {V : Type} (k : string) (v : V) (d : dict V) (x : string) :
  In x (map fst (dict_set k v d)) <-> x = k \/ In x (map fst d).
Proof.
  induction d as [|[k' v'] d IH]; simpl.
  - intuition.
  - destruct (String.eqb_spec k' k) as [-> | Hne]; simpl.
    + intuition.
    + rewrite IH. intuition.
Qed.

Lemma dict_set_NoDup {V : Type} (k : string) (v : V) (d : dict V) :
  NoDup (map fst d) -> NoDup (map fst (dict_set k v d)).
Proof.
  induction d as [|[k' v'] d IH]; simpl; intros Hnd.
  - constructor; [intros [] | constructor].
  - inversion Hnd as [|? ? Hnotin Hnd']; subst.
    destruct (String.eqb_spec k' k) as [-> | Hne]; simpl.
    + now constructor.
    + constructor; [ | now apply IH].
      rewrite dict_set_keys. intros [E | Hin]; [now apply Hne | contradiction].
Qed.

Lemma dict_set_new {V : Type} (k : string) (v : V) (d : dict V) :
  ~ In k (map fst d) -> dict_set k v d = (d ++ [(k, v)])%list.
Proof.
  induction d as [|[k' v'] d IH]; simpl; intros Hnotin; [reflexivity | ].
  destruct (String.eqb_spec k' k) as [-> | Hne].
  - exfalso. apply Hnotin. now left.
  - rewrite IH; [reflexivity | ]. intros Hin. apply Hnotin. now right.
Qed.

Lemma build_model_spec (model_config : ModelConfig) (m : Model) :
  build_model model_config = inr m <-> loaded_from model_config m.
Proof.
  unfold build_model, loaded_from.
  destruct model_config as [[n|] [t|] [c|] [mc|] [p|] caps];
    destruct m as [n' t' c' mc' p' caps']; cbn;
    split; intros H; try discriminate; try (intuition discriminate).
  - injection H as -> -> -> -> -> <-. repeat split.
  - destruct H as [H1 [H2 [H3 [H4 [H5 H6]]]]].
    injection H1 as ->. injection H2 as ->. injection H3 as ->.
    injection H4 as ->. injection H5 as ->. now rewrite H6.
Qed.

Lemma build_model_error (model_config : ModelConfig) :
  (exists e, build_model model_config = inl e) <->
  cfg_name model_config = None \/ cfg_type model_config = None \/
  cfg_cost_per_1m_tokens model_config = None \/
  cfg_max_context model_config = None \/ cfg_priority model_config = None.
Proof.
  unfold build_model.
  destruct model_config as [[n|] [t|] [c|] [mc|] [p|] caps]; cbn;
    split; intros H; eauto 6;
    try (destruct H as [e H]; discriminate);
    repeat (destruct H as [H | H]; try discriminate).
Qed.

(** With keys that are pairwise distinct and new to the registry, the loop
    appends one model per entry, in the order of the entries. *)
Lemma load_models_fresh (items : dict ModelConfig) (acc ms : dict Model) :
  load_models items acc = inr ms ->
  NoDup (map fst acc ++ map fst items) ->
  exists built,
    ms = (acc ++ built)%list /\
    Forall2 (fun entry loaded =>
               fst loaded = fst entry /\
               loaded_from (snd entry) (snd loaded)) items built.
Proof.
  revert acc. induction items as [|[id mc] items IH]; intros acc; simpl.
  - intros H _. injection H as <-. exists []. split;
      [now rewrite app_nil_r | constructor].
  - destruct (build_model mc) as [e | m] eqn:Hbuild; [discriminate | ].
    intros Hload Hnd.
    assert (Hnew : ~ In id (map fst acc)).
    { intros Hin. apply NoDup_remove_2 in Hnd. apply Hnd.
      apply in_or_app. now left. }
    rewrite (dict_set_new _ _ _ Hnew) in Hload.
    destruct (IH _ Hload) as [built [-> Hall]].
    { rewrite map_app, <- app_assoc. exact Hnd. }
    exists ((id, m) :: built). split; [now rewrite <- app_assoc | ].
    constructor; [ | exact Hall].
    split; [reflexivity | now apply build_model_spec].
Qed.

Lemma load_models_NoDup (items : dict ModelConfig) (acc ms : dict Model) :
  load_models items acc = inr ms ->
  NoDup (map fst acc) -> NoDup (map fst ms).
Proof.
  revert acc. induction items as [|[id mc] items IH]; intros acc; simpl.
  - intros H Hnd. now injection H as <-.
  - destruct (build_model mc) as [e | m]; [discriminate | ].
    intros Hload Hnd. apply (IH _ Hload). now apply dict_set_NoDup.
Qed.

Lemma load_models_error (items : dict ModelConfig) (acc : dict Model) :
  (exists e, load_models items acc = inl e) <->
  exists id mc e, In (id, mc) items /\ build_model mc = inl e.
Proof.
  revert acc. induction items as [|[id mc] items IH]; intros acc; simpl.
  - split; [intros [e H]; discriminate | intros [id [mc [e [[] _]]]]].
  - destruct (build_model mc) as [e | m] eqn:Hbuild.
    + split; [ | intros _; now exists e].
      intros _. exists id, mc, e. split; [now left | exact Hbuild].
    + rewrite IH. split.
      * intros [id' [mc' [e [Hin H]]]]. exists id', mc', e.
        split; [now right | exact H].
      * intros [id' [mc' [e [[E | Hin] H]]]].
        -- injection E as <- <-. congruence.
        -- now exists id', mc', e.
Qed.

Lemma init_inr (path : string) (file : option Config) (r : ModelRouter) :
  init path file = inr r ->
  exists ms,
    load_models
      (models_of (match file with Some c => c | None => get_example_config end))
      [] = inr ms /\
    r = mkRouter path ms
          (match cfg_routing_rules
                   (match file with
                    | Some c => c
                    | None => get_example_config
                    end) with
           | Some rules => rules
           | None => []
           end)
          0
          (match cfg_budget
                   (match file with
                    | Some c => c
                    | None => get_example_config
                    end) with
           | Some b =>
               match cfg_daily_limit b with
               | Some l => l
               | None => 50000
               end
           | None => 50000
           end).
Proof.
  unfold init, load_config, models_of. cbn [models config_path budget_spent_today].
  destruct (load_models _ []) as [e | ms]; [discriminate | ].
  intros H. injection H as <-. now exists ms.
Qed.

(** X15: without a configuration file the router starts empty, with a limit
    of 50000 and nothing spent, and routes every task to no model: the
    decision is routed with the fixed reasoning text and none as selected
    model and estimated cost, after one run of the selection. *)
Theorem init_without_file (path : string) (task : Task) :
  init path None = inr (example_router path) /\
  route_task (example_router path) task =
    [ ("status", PyStr "routed");
      ("task", PyStr (description task));
      ("task_type", PyStr (task_type task));
      ("complexity", PyStr (complexity task));
      ("selected_model", PyNone);
      ("reasoning", PyStr "No matching rule - using cheapest option");
      ("estimated_cost", PyNone) ] /\
  route_task_events (example_router path) task = [SelectCheapest task].
Proof. repeat split. Qed.

(** X16: a loaded router mirrors its configuration.  It keeps the path, has
    spent nothing, takes the limit and the rules of the file (50000 and no
    rule when absent), and, the keys of a mapping being distinct, its
    registry has one model per entry, in the order of the file, under the
    same id and with the fields of the entry ([capabilities] empty when the
    entry has none). *)
Theorem init_mirrors_config (path : string) (config : Config)
  (r : ModelRouter) :
  init path (Some config) = inr r ->
  NoDup (map fst (models_of config)) ->
  config_path r = path /\
  budget_spent_today r = 0%Q /\
  daily_limit r =
    match cfg_budget config with
    | Some b => match cfg_daily_limit b with Some l => l | None => 50000%Q end
    | None => 50000%Q
    end /\
  routing_rules r =
    match cfg_routing_rules config with
    | Some rules => rules
    | None => []
    end /\
  Forall2 (fun entry loaded =>
             fst loaded = fst entry /\
             loaded_from (snd entry) (snd loaded))
          (models_of config) (models r).
Proof.
  intros Hinit Hnd.
  destruct (init_inr _ _ _ Hinit) as [ms [Hload ->]].
  cbn [config_path budget_spent_today daily_limit routing_rules models].
  repeat split.
  destruct (load_models_fresh _ _ _ Hload Hnd) as [built [-> Hall]].
  exact Hall.
Qed.

Lemma init_mirrors_config_witness :
  exists r,
    init "config/routing.yaml" (Some Sample.config_two) = inr r /\
    daily_limit r = 100%Q /\
    routing_rules r = [Sample.rule_chat] /\
    Forall2 (fun entry loaded =>
               fst loaded = fst entry /\
               loaded_from (snd entry) (snd loaded))
            (models_of Sample.config_two) (models r).
Proof.
  eexists. split; [reflexivity | ].
  assert (Hnd : NoDup (map fst (models_of Sample.config_two))).
  { repeat constructor; simpl; intuition discriminate. }
  destruct (init_mirrors_config "config/routing.yaml" Sample.config_two _
              eq_refl Hnd) as [_ [_ [Hlimit [Hrules Hall]]]].
  split; [exact Hlimit | split; [exact Hrules | exact Hall]].
Defined.

(** X17: loading fails with a [KeyError] exactly when some model entry lacks
    one of [name], [type], [cost_per_1m_tokens], [max_context], [priority];
    the key reported is one of these five, and a missing [capabilities],
    budget, rule list or model mapping never makes it fail. *)
Theorem init_key_error (path : string) (config : Config) :
  ((exists e, init path (Some config) = inl e) <->
   exists id model_config,
     In (id, model_config) (models_of config) /\
     (cfg_name model_config = None \/ cfg_type model_config = None \/
      cfg_cost_per_1m_tokens model_config = None \/
      cfg_max_context model_config = None \/
      cfg_priority model_config = None)) /\
  (forall key,
     init path (Some config) = inl (MissingKey key) ->
     In key ["name"; "type"; "cost_per_1m_tokens"; "max_context";
             "priority"]).
Proof.
  split.
  - transitivity (exists e, load_models (models_of config) [] = inl e).
    + unfold init, load_config, models_of. cbn [models].
      destruct (load_models _ []) as [e | ms].
      * split; intros _; now exists e.
      * split; intros [e H]; discriminate.
    + rewrite load_models_error. split.
      * intros [id [mc [e [Hin H]]]]. exists id, mc.
        split; [exact Hin | ]. apply build_model_error. now exists e.
      * intros [id [mc [Hin H]]]. apply build_model_error in H.
        destruct H as [e H]. now exists id, mc, e.
  - intros key. unfold init, load_config. cbn [models].
    fold (models_of config).
    assert (Hloop : forall items acc,
               load_models items acc = inl (MissingKey key) ->
               In key ["name"; "type"; "cost_per_1m_tokens"; "max_context";
                       "priority"]).
    { induction items as [|[id mc] items IH]; intros acc; simpl;
        [discriminate | ].
      destruct (build_model mc) as [e | m] eqn:Hbuild; [ | apply IH].
      intros H. injection H as ->. revert Hbuild. unfold build_model.
      destruct (cfg_name mc); [ | intros H; injection H as <-; simpl; tauto].
      destruct (cfg_type mc); [ | intros H; injection H as <-; simpl; tauto].
      destruct (cfg_cost_per_1m_tokens mc);
        [ | intros H; injection H as <-; simpl; tauto].
      destruct (cfg_max_context mc);
        [ | intros H; injection H as <-; simpl; tauto].
      destruct (cfg_priority mc);
        [discriminate | intros H; injection H as <-; simpl; tauto]. }
    destruct (load_models (models_of config) []) as [e | ms] eqn:Hload;
      [ | discriminate].
    intros H. injection H as ->. exact (Hloop _ _ Hload).
Qed.

(** The configuration with a model that has no priority is refused. *)
Example init_key_error_priority :
  init "config/routing.yaml" (Some Sample.config_broken)
  = inl (MissingKey "priority").
Proof. reflexivity. Qed.

Lemma dict_values_get {V : Type} (d : dict V) (v : V) :
  NoDup (map fst d) ->
  In v (dict_values d) -> exists k, dict_get k d = Some v.
Proof.
  induction d as [|[k0 v0] d IH]; simpl; intros Hnd; [intros [] | ].
  inversion Hnd as [|? ? Hnotin Hnd']; subst.
  intros [<- | Hin].
  - exists k0. now rewrite String.eqb_refl.
  - destruct (IH Hnd' Hin) as [k Hk]. exists k.
    destruct (String.eqb_spec k0 k) as [-> | Hne]; [ | exact Hk].
    exfalso. apply dict_get_None_keys in Hnotin. congruence.
Qed.

(** X18: the registry of a loaded router never holds an id twice, whatever
    the configuration, so [models.get] and [models.values()] agree on which
    models are registered. *)
Theorem init_registry_keys (path : string) (file : option Config)
  (r : ModelRouter) :
  init path file = inr r ->
  NoDup (map fst (models r)) /\
  (forall m, In m (dict_values (models r)) <->
             exists id, dict_get id (models r) = Some m).
Proof.
  intros Hinit. destruct (init_inr _ _ _ Hinit) as [ms [Hload ->]].
  cbn [models].
  assert (Hnd : NoDup (map fst ms)).
  { apply (load_models_NoDup _ _ _ Hload). constructor. }
  split; [exact Hnd | ].
  intros m. split; [now apply dict_values_get | ].
  intros [id H]. exact (dict_get_In _ _ _ H).
Qed.

Lemma init_registry_keys_witness :
  exists r,
    init "config/routing.yaml" (Some Sample.config_two) = inr r /\
    NoDup (map fst (models r)).
Proof.
  eexists. split; [reflexivity | ].
  exact (proj1 (init_registry_keys "config/routing.yaml"
                  (Some Sample.config_two) _ eq_refl)).
Defined.

(** X19: a router starts with nothing spent, so it blocks from its first
    task on exactly when the configured limit is zero or negative. *)
Theorem init_blocks_without_budget (path : string) (file : option Config)
  (r : ModelRouter) (task : Task) :
  init path file = inr r ->
  budget_spent_today r = 0%Q /\
  (dict_get "status" (route_task r task) = Some (PyStr "blocked") <->
   (daily_limit r <= 0)%Q).
Proof.
  intros Hinit. destruct (init_inr _ _ _ Hinit) as [ms [_ ->]].
  cbn [budget_spent_today daily_limit].
  split; [reflexivity | ].
  set (limit := match cfg_budget _ with Some _ => _ | None => _ end).
  rewrite <- Qle_bool_iff.
  unfold route_task, route_task_run, budget_exceeded.
  cbn [budget_spent_today daily_limit routing_rules].
  destruct (Qle_bool limit 0).
  - split; reflexivity.
  - destruct (scan_rules _ task) as [scanned [rule|]].
    + match goal with
      | |- context [rule_decision ?s task rule] =>
          destruct (rule_decision_fields s task rule) as [Hstatus _];
          destruct (rule_decision s task rule) as [evs d]
      end.
      cbn [snd] in *. rewrite Hstatus. split; discriminate.
    + cbn. split; discriminate.
Qed.

Lemma init_blocks_without_budget_witness :
  exists r,
    init "config/routing.yaml"
      (Some (mkConfig (Some (mkBudgetConfig (Some 0))) None None)) = inr r /\
    dict_get "status" (route_task r Sample.chat_task)
    = Some (PyStr "blocked").
Proof.
  eexists. split; [reflexivity | ].
  apply (init_blocks_without_budget "config/routing.yaml"
           (Some (mkConfig (Some (mkBudgetConfig (Some 0))) None None))
           _ Sample.chat_task eq_refl).
  apply Qle_bool_iff. reflexivity.
Defined.

(** ** Registering a model, and rules against the classifier *)


Lemma min_by_cost_snoc (l : list Model) (m : Model) :
  min_by_cost (l ++ [m]) =
    match min_by_cost l with
    | Some best => Some (min_step best m)
    | None => Some m
    end.
Proof.
  destruct l as [|x l]; simpl; [reflexivity | ].
  now rewrite fold_left_app.
Qed.

(** X20: registering a model under a new id leaves the selection unchanged
    when the model does not list the task's type; when it does, the new model
    is selected only if no model was capable before or if it is strictly
    cheaper than the one selected before, so the cost of the selection never
    rises and, at equal cost, the model registered first is kept. *)
Theorem find_cheapest_model_register (cp : string) (ms : dict Model)
  (rules : list RoutingRule) (spent limit : Q) (id : string) (m : Model)
  (task : Task) :
  dict_get id ms = None ->
  find_cheapest_model (mkRouter cp (dict_set id m ms) rules spent limit) task =
    if capable_of task m then
      match find_cheapest_model (mkRouter cp ms rules spent limit) task with
      | Some best =>
          Some (if (cost_per_1m_tokens m <? cost_per_1m_tokens best)%Z
                then m else best)
      | None => Some m
      end
    else find_cheapest_model (mkRouter cp ms rules spent limit) task.
Proof.
  intros Hnew. apply dict_get_None_keys in Hnew.
  unfold find_cheapest_model, dict_values. cbn [models].
  rewrite (dict_set_new _ _ _ Hnew), map_app, filter_app. cbn [map snd filter].
  destruct (capable_of task m).
  - apply min_by_cost_snoc.
  - now rewrite app_nil_r.
Qed.

Lemma find_cheapest_model_register_witness :
  find_cheapest_model
    (mkRouter "config/routing.yaml"
       (dict_set "b" (Sample.chat_model "Model B" 2)
          [("a", Sample.chat_model "Model A" 5)]) [] 0 50000)
    Sample.chat_task
  = Some (Sample.chat_model "Model B" 2).
Proof.
  rewrite (find_cheapest_model_register "config/routing.yaml"
             [("a", Sample.chat_model "Model A" 5)] [] 0 50000 "b"
             (Sample.chat_model "Model B" 2) Sample.chat_task eq_refl).
  reflexivity.
Defined.

(** X21: a rule can only match what the classifier produces: if its
    [task_type] filter is a non-empty string other than the seven task
    types, or its [complexity] filter a non-empty string other than "low",
    "medium", "high", it matches no classified task, whatever the text. *)
Theorem rule_outside_vocabulary (rule : RoutingRule) (t : string)
  (d : string) :
  t <> "" ->
  (when_task_type (when_of rule) = Some t /\
   ~ In t ["code_simple"; "code_review"; "debugging"; "code_complex";
           "image"; "data"; "chat"]) \/
  (when_complexity (when_of rule) = Some t /\
   ~ In t ["low"; "medium"; "high"]) ->
  ~ rule_matches rule (classify_task d) /\
  rule_applies rule (classify_task d) = false.
Proof.
  intros Ht Hout.
  assert (Hno : ~ rule_matches rule (classify_task d)).
  { destruct (classify_task_vocabulary d) as [Htype Hcomplexity].
    intros [Hpt Hpc]. unfold filter_passes in Hpt, Hpc.
    destruct Hout as [[Hw Hnot] | [Hw Hnot]].
    - rewrite Hw in Hpt.
      destruct Hpt as [H | [H | H]]; [discriminate | | ];
        injection H as H; [now apply Ht | ].
      apply Hnot. now rewrite H.
    - rewrite Hw in Hpc.
      destruct Hpc as [H | [H | H]]; [discriminate | | ];
        injection H as H; [now apply Ht | ].
      apply Hnot. now rewrite H. }
  split; [exact Hno | now apply rule_applies_false].
Qed.

Lemma rule_outside_vocabulary_witness :
  rule_applies
    (mkRule (Sample.when_type "coding") (Some "a") None None)
    (classify_task "implement a parser") = false.
Proof.
  apply (rule_outside_vocabulary
           (mkRule (Sample.when_type "coding") (Some "a") None None)
           "coding" "implement a parser").
  - discriminate.
  - left. split; [reflexivity | ].
    simpl. intuition discriminate.
Defined.

(** * Values in binary64 *)

(** ** Rounding keeps a positive value positive *)

Section Binary64.

Local Open Scope Z_scope.

Lemma digits2_pos_bounds (p : positive) :
  2 ^ (Zpos (digits2_pos p) - 1) <= Zpos p < 2 ^ Zpos (digits2_pos p).
Proof.
  induction p as [p IH | p IH | ]; cbn [digits2_pos].
  - rewrite Pos2Z.inj_succ.
    replace (Z.succ (Zpos (digits2_pos p)) - 1) with (Z.succ (Zpos (digits2_pos p) - 1)) by lia.
    rewrite !Z.pow_succ_r by lia. lia.
  - rewrite Pos2Z.inj_succ.
    replace (Z.succ (Zpos (digits2_pos p)) - 1) with (Z.succ (Zpos (digits2_pos p) - 1)) by lia.
    rewrite !Z.pow_succ_r by lia. lia.
  - cbn. lia.
Qed.

Lemma iter_xO_value (p d : positive) :
  Zpos (Pos.iter xO p d) = Zpos p * 2 ^ Zpos d.
Proof.
  change (Pos.iter xO p d) with (shift_pos d p).
  rewrite shift_pos_correct. rewrite Z.pow_pos_fold. lia.
Qed.

Lemma iter_xO_digits (p d : positive) :
  digits2_pos (Pos.iter xO p d) = (digits2_pos p + d)%positive.
Proof.
  induction d as [|d IH] using Pos.peano_ind.
  - cbn. lia.
  - rewrite Pos.iter_succ. cbn [digits2_pos]. rewrite IH. lia.
Qed.

(** shr_1 halves a non-negative mantissa *)
Lemma shr_1_m (r : shr_record) :
  0 <= shr_m r -> shr_m (shr_1 r) = shr_m r / 2.
Proof.
  destruct r as [m rb sb]. cbn [shr_m]. intros Hm.
  destruct m as [|p|p]; [reflexivity | | lia].
  destruct p as [p|p|]; cbn [shr_1 shr_m].
  - rewrite Pos2Z.inj_xI. apply Z.div_unique with (r := 1); lia.
  - rewrite Pos2Z.inj_xO. apply Z.div_unique with (r := 0); lia.
  - reflexivity.
Qed.

Lemma pow2_xI (k : positive) : 2 ^ Zpos k~1 = 2 * 2 ^ Zpos k * 2 ^ Zpos k.
Proof.
  assert (E : Zpos k~1 = 1 + Zpos k + Zpos k) by lia.
  rewrite E, !Z.pow_add_r by lia. reflexivity.
Qed.

Lemma pow2_xO (k : positive) : 2 ^ Zpos k~0 = 2 ^ Zpos k * 2 ^ Zpos k.
Proof.
  assert (E : Zpos k~0 = Zpos k + Zpos k) by lia.
  rewrite E, !Z.pow_add_r by lia. reflexivity.
Qed.

Lemma iter_pos_shr_1_m (k : positive) (r : shr_record) :
  0 <= shr_m r ->
  shr_m (iter_pos shr_1 k r) = shr_m r / 2 ^ Zpos k.
Proof.
  revert r. induction k as [k IH | k IH | ]; intros r Hr; cbn [iter_pos].
  - assert (Hp : 0 < 2 ^ Zpos k) by (apply Z.pow_pos_nonneg; lia).
    assert (H1 : 0 <= shr_m (shr_1 r))
      by (rewrite shr_1_m by assumption; apply Z.div_pos; lia).
    assert (H2 : 0 <= shr_m (iter_pos shr_1 k (shr_1 r)))
      by (rewrite IH by assumption; apply Z.div_pos; lia).
    rewrite IH by assumption. rewrite IH by assumption.
    rewrite shr_1_m by assumption.
    rewrite pow2_xI, !Z.div_div by lia. f_equal. lia.
  - assert (Hp : 0 < 2 ^ Zpos k) by (apply Z.pow_pos_nonneg; lia).
    assert (H2 : 0 <= shr_m (iter_pos shr_1 k r))
      by (rewrite IH by assumption; apply Z.div_pos; lia).
    rewrite IH by assumption. rewrite IH by assumption.
    rewrite pow2_xO, !Z.div_div by lia. f_equal.
  - rewrite shr_1_m by assumption. reflexivity.
Qed.

Lemma shr_record_of_loc_m (m : Z) (l : location) : shr_m (shr_record_of_loc m l) = m.
Proof. destruct l as [|[]]; reflexivity. Qed.

Lemma fexp64 (e : Z) : fexp 53 1024 e = Z.max (e - 53) (-1074).
Proof. reflexivity. Qed.

(** A right shift by [fexp] keeps a positive mantissa positive when the exponent is at least [emin] *)
Lemma shr_fexp_pos (m e : Z) (l : location) :
  0 < m -> -1074 <= e ->
  0 < shr_m (fst (shr_fexp 53 1024 m e l)) /\ -1074 <= snd (shr_fexp 53 1024 m e l).
Proof.
  intros Hm He. unfold shr_fexp, shr. rewrite fexp64.
  destruct m as [|p|p]; try lia. cbn [Zdigits2].
  pose proof (digits2_pos_bounds p) as [Hlo Hhi].
  set (d := Zpos (digits2_pos p)) in *.
  destruct (Z.max (d + e - 53) (-1074) - e) as [|k|k] eqn:Hn; cbn [fst snd].
  - rewrite shr_record_of_loc_m. lia.
  - rewrite iter_pos_shr_1_m by (rewrite shr_record_of_loc_m; lia).
    rewrite shr_record_of_loc_m.
    split; [ | lia].
    assert (Hk : Zpos k <= d - 1) by lia.
    apply Z.div_str_pos. split; [apply Z.pow_pos_nonneg; lia | ].
    apply Z.le_trans with (2 ^ (d - 1)); [ | exact Hlo].
    apply Z.pow_le_mono_r; lia.
  - rewrite shr_record_of_loc_m. lia.
Qed.

Lemma round_nearest_even_ge (m : Z) (l : location) : m <= round_nearest_even m l.
Proof.
  destruct l as [|[]]; cbn; try lia. destruct (Z.even m); lia.
Qed.

Lemma binary_round_aux_pos (m e : Z) (l : location) :
  0 < m -> -1074 <= e ->
  float_positive (binary_round_aux 53 1024 false m e l).
Proof.
  intros Hm He. unfold binary_round_aux.
  destruct (shr_fexp_pos m e l Hm He) as [H1 H1e].
  destruct (shr_fexp 53 1024 m e l) as [mrs' e']. cbn [fst snd] in *.
  pose proof (round_nearest_even_ge (shr_m mrs') (loc_of_shr_record mrs')) as Hr.
  set (m1 := round_nearest_even (shr_m mrs') (loc_of_shr_record mrs')) in *.
  destruct (shr_fexp_pos m1 e' loc_Exact) as [H2 H2e]; [lia | lia | ].
  destruct (shr_fexp 53 1024 m1 e' loc_Exact) as [mrs'' e'']. cbn [fst snd] in *.
  destruct (shr_m mrs'') as [|q|q]; try lia.
  destruct (e'' <=? 1024 - 53); reflexivity.
Qed.

Lemma shl_align_spec (m : positive) (e e' : Z) :
  Zpos (fst (shl_align m e e')) = Zpos m * 2 ^ (e - snd (shl_align m e e')) /\
  snd (shl_align m e e') = Z.min e e'.
Proof.
  unfold shl_align. destruct (e' - e) as [|d|d] eqn:Hd; cbn [fst snd].
  - replace (e - e) with 0 by lia. split; lia.
  - replace (e - e) with 0 by lia. split; lia.
  - rewrite iter_xO_value. split; [ | lia]. f_equal. f_equal. lia.
Qed.

Lemma binary_round_pos (p : positive) (e : Z) :
  -1074 <= e -> float_positive (binary_round 53 1024 false p e).
Proof.
  intros He. unfold binary_round.
  pose proof (shl_align_spec p e (fexp 53 1024 (Zpos (digits2_pos p) + e))) as [_ Hs].
  destruct (shl_align p e _) as [mz ez]. cbn [snd] in Hs.
  apply binary_round_aux_pos; [lia | ].
  rewrite Hs, fexp64. lia.
Qed.

Lemma cond_Zopp_mul (s : bool) (a b : Z) : cond_Zopp s (a * b) = cond_Zopp s a * b.
Proof. destruct s; cbn; lia. Qed.

Lemma Qpow2_pos (e : Z) : (0 < 2 ^ e)%Q.
Proof. apply Qpower_0_lt. reflexivity. Qed.

Lemma SF2Q_aligned (s : bool) (m : positive) (e ez : Z) :
  ez <= e ->
  (SF2Q (S754_finite s m e) ==
   inject_Z (cond_Zopp s (Zpos m * 2 ^ (e - ez))) * 2 ^ ez)%Q.
Proof.
  intros H. unfold SF2Q.
  rewrite cond_Zopp_mul, inject_Z_mult, Zpower_Qpower by lia.
  change (inject_Z 2) with 2%Q.
  rewrite <- Qmult_assoc, <- Qpower_plus by discriminate.
  replace (e - ez + ez) with e by lia. reflexivity.
Qed.

Lemma SFsub_finite_pos (sx sy : bool) (mx my : positive) (ex ey : Z) :
  -1074 <= ex -> -1074 <= ey ->
  (SF2Q (S754_finite sy my ey) < SF2Q (S754_finite sx mx ex))%Q ->
  float_positive (SFsub 53 1024 (S754_finite sx mx ex) (S754_finite sy my ey)).
Proof.
  intros Hex Hey Hlt. cbn [SFsub].
  set (ez := Z.min ex ey).
  destruct (shl_align_spec mx ex ez) as [Hx Hxe].
  destruct (shl_align_spec my ey ez) as [Hy Hye].
  replace (Z.min ex ez) with ez in Hxe by lia.
  replace (Z.min ey ez) with ez in Hye by lia.
  rewrite Hxe in Hx. rewrite Hye in Hy.
  rewrite (SF2Q_aligned sx mx ex ez), (SF2Q_aligned sy my ey ez) in Hlt by lia.
  rewrite <- Hx, <- Hy in Hlt.
  apply Qmult_lt_r in Hlt; [ | apply Qpow2_pos].
  rewrite <- Zlt_Qlt in Hlt.
  destruct (cond_Zopp sx (Zpos (fst (shl_align mx ex ez))) -
            cond_Zopp sy (Zpos (fst (shl_align my ey ez)))) as [|p|p] eqn:Hd;
    try lia.
  cbn [binary_normalize]. apply binary_round_pos. lia.
Qed.

Lemma digits2_pos_unique (q : positive) (n : Z) :
  2 ^ (n - 1) <= Zpos q < 2 ^ n -> Zpos (digits2_pos q) = n.
Proof.
  intros [Hlo Hhi]. pose proof (digits2_pos_bounds q) as [Dlo Dhi].
  set (d := Zpos (digits2_pos q)) in *.
  assert (Hn : 0 < n).
  { destruct (Z.ltb_spec 0 n); [assumption | ].
    exfalso. destruct (Z.eqb_spec n 0) as [-> | ]; [cbn in Hhi; lia | ].
    rewrite Z.pow_neg_r in Hhi by lia. lia. }
  destruct (Z.lt_trichotomy d n) as [H | [H | H]]; [ | assumption | ].
  - assert (2 ^ d <= 2 ^ (n - 1)) by (apply Z.pow_le_mono_r; lia). lia.
  - assert (2 ^ n <= 2 ^ (d - 1)) by (apply Z.pow_le_mono_r; lia). lia.
Qed.

(** An integer of at most 53 bits converts to a float of the same value *)
Lemma binary_round_exact (s : bool) (p : positive) :
  Zpos (digits2_pos p) <= 53 ->
  exists m e,
    binary_round 53 1024 s p 0 = S754_finite s m e /\
    -1074 <= e /\
    (SF2Q (S754_finite s m e) == inject_Z (cond_Zopp s (Zpos p)))%Q.
Proof.
  intros Hd. unfold binary_round.
  pose proof (digits2_pos_bounds p) as [Dlo Dhi].
  set (d := Zpos (digits2_pos p)) in *.
  assert (Hd1 : 1 <= d) by (unfold d; lia).
  assert (Hf : fexp 53 1024 (d + 0) = d - 53) by (rewrite fexp64; lia).
  rewrite Hf.
  destruct (shl_align_spec p 0 (d - 53)) as [Hv He].
  destruct (shl_align p 0 (d - 53)) as [mz ez]. cbn [fst snd] in *.
  replace (Z.min 0 (d - 53)) with (d - 53) in He by lia. subst ez.
  replace (0 - (d - 53)) with (53 - d) in Hv by lia.
  assert (Hdz : Zpos (digits2_pos mz) = 53).
  { apply digits2_pos_unique. rewrite Hv. split.
    - replace (53 - 1) with ((d - 1) + (53 - d)) by lia.
      rewrite Z.pow_add_r by lia.
      apply Z.mul_le_mono_nonneg_r; [apply Z.pow_nonneg; lia | assumption].
    - replace 53 with (d + (53 - d)) at 2 by lia.
      rewrite Z.pow_add_r by lia.
      apply Z.mul_lt_mono_pos_r; [apply Z.pow_pos_nonneg; lia | assumption]. }
  exists mz, (d - 53).
  split; [ | split; [lia | ]].
  - unfold binary_round_aux, shr_fexp, shr. cbn [Zdigits2]. rewrite Hdz.
    replace (fexp 53 1024 (53 + (d - 53)) - (d - 53)) with 0
      by (rewrite fexp64; lia).
    cbn [shr_record_of_loc shr_m loc_of_shr_record round_nearest_even Zdigits2].
    rewrite Hdz.
    replace (fexp 53 1024 (53 + (d - 53)) - (d - 53)) with 0
      by (rewrite fexp64; lia).
    cbn [shr_m].
    destruct (Z.leb_spec (d - 53) (1024 - 53)); [reflexivity | lia].
  - rewrite (SF2Q_aligned s mz (d - 53) (d - 53)) by lia.
    replace (d - 53 - (d - 53)) with 0 by lia.
    rewrite Z.pow_0_r, Z.mul_1_r, Hv, cond_Zopp_mul, inject_Z_mult.
    rewrite Zpower_Qpower by lia. change (inject_Z 2) with 2%Q.
    rewrite <- Qmult_assoc, <- Qpower_plus by discriminate.
    replace (53 - d + (d - 53)) with 0 by lia.
    change (2 ^ 0)%Q with 1%Q. apply Qmult_1_r.
Qed.

Lemma SF2Q_sign (s : bool) (m : positive) (e : Z) :
  ((0 < SF2Q (S754_finite s m e))%Q <-> s = false) /\
  ((SF2Q (S754_finite s m e) < 0)%Q <-> s = true).
Proof.
  unfold SF2Q. pose proof (Qpow2_pos e) as Hp.
  destruct s; cbn [cond_Zopp].
  - assert (H : (inject_Z (- Zpos m) * 2 ^ e < 0)%Q).
    { setoid_replace 0%Q with (0 * 2 ^ e)%Q by ring.
      apply Qmult_lt_compat_r; [exact Hp | reflexivity]. }
    split; split; intros H'; try reflexivity; try discriminate; try exact H.
    exfalso. apply (Qlt_irrefl 0). now apply Qlt_trans with (inject_Z (- Zpos m) * 2 ^ e)%Q.
  - assert (H : (0 < inject_Z (Zpos m) * 2 ^ e)%Q).
    { setoid_replace 0%Q with (0 * 2 ^ e)%Q by ring.
      apply Qmult_lt_compat_r; [exact Hp | reflexivity]. }
    split; split; intros H'; try reflexivity; try discriminate; try exact H.
    exfalso. apply (Qlt_irrefl 0). now apply Qlt_trans with (inject_Z (Zpos m) * 2 ^ e)%Q.
Qed.

Lemma valid_finite_facts (s : bool) (m : positive) (e : Z) :
  valid_binary 53 1024 (S754_finite s m e) = true ->
  -1074 <= e /\ Zpos (digits2_pos m) <= 53 /\
  (-1074 < e -> Zpos (digits2_pos m) = 53).
Proof.
  cbn [valid_binary]. unfold bounded, canonical_mantissa.
  rewrite andb_true_iff, Z.eqb_eq, fexp64. lia.
Qed.

Lemma SFsub_value_pos (x y : spec_float) :
  small_exp x -> small_exp y ->
  (SF2Q y < SF2Q x)%Q ->
  float_positive (SFsub 53 1024 x y).
Proof.
  destruct x as [sx | sx | | sx mx ex]; destruct y as [sy | sy | | sy my ey];
    cbn [small_exp]; try contradiction; intros Hx Hy Hlt.
  - exfalso. exact (Qlt_irrefl _ Hlt).
  - apply (proj2 (SF2Q_sign sy my ey)) in Hlt. subst sy. reflexivity.
  - apply (proj1 (SF2Q_sign sx mx ex)) in Hlt. subst sx. reflexivity.
  - now apply SFsub_finite_pos.
Qed.

Lemma b64_of_int_exact (z : Z) :
  Z.abs z <= 2 ^ 53 ->
  float_of_int z = inr (b64_of_int z) /\
  small_exp (b64_of_int z) /\
  (SF2Q (b64_of_int z) == inject_Z z)%Q.
Proof.
  intros Hz. unfold float_of_int, b64_of_int.
  destruct z as [|p|p]; cbn [binary_normalize].
  - repeat split.
  - destruct (Z.eq_dec (Zpos p) (2 ^ 53)) as [E | NE].
    + injection E as ->.
      split; [reflexivity | split; [vm_compute; discriminate | reflexivity]].
    + destruct (binary_round_exact false p) as [m [e [Hr [He Hv]]]].
      { pose proof (digits2_pos_bounds p) as [Dlo _].
        assert (H : 2 ^ (Zpos (digits2_pos p) - 1) < 2 ^ 53) by lia.
        apply Z.pow_lt_mono_r_iff in H; lia. }
      rewrite Hr. repeat split; [exact He | exact Hv].
  - destruct (Z.eq_dec (Zpos p) (2 ^ 53)) as [E | NE].
    + injection E as ->.
      split; [reflexivity | split; [vm_compute; discriminate | reflexivity]].
    + destruct (binary_round_exact true p) as [m [e [Hr [He Hv]]]].
      { pose proof (digits2_pos_bounds p) as [Dlo _].
        assert (H : 2 ^ (Zpos (digits2_pos p) - 1) < 2 ^ 53) by lia.
        apply Z.pow_lt_mono_r_iff in H; lia. }
      rewrite Hr. repeat split; [exact He | exact Hv].
Qed.

Lemma SF2Q_lt_aligned (sx sy : bool) (mx my : positive) (ex ey ez : Z) :
  ez <= ex -> ez <= ey ->
  cond_Zopp sy (Zpos my * 2 ^ (ey - ez)) < cond_Zopp sx (Zpos mx * 2 ^ (ex - ez)) ->
  (SF2Q (S754_finite sy my ey) < SF2Q (S754_finite sx mx ex))%Q.
Proof.
  intros Hx Hy Hlt.
  rewrite (SF2Q_aligned sx mx ex ez), (SF2Q_aligned sy my ey ez) by lia.
  apply Qmult_lt_compat_r; [apply Qpow2_pos | now rewrite <- Zlt_Qlt].
Qed.

(** Between two binary64 numbers the larger exponent wins *)
Lemma canonical_exp_lt (m1 m2 : positive) (e1 e2 : Z) :
  valid_binary 53 1024 (S754_finite false m1 e1) = true ->
  valid_binary 53 1024 (S754_finite false m2 e2) = true ->
  e1 < e2 ->
  Zpos m1 * 2 ^ (e1 - e1) < Zpos m2 * 2 ^ (e2 - e1).
Proof.
  intros V1 V2 Hlt.
  apply valid_finite_facts in V1. apply valid_finite_facts in V2.
  destruct V1 as [He1 [Hd1 _]]. destruct V2 as [_ [_ Hd2]].
  specialize (Hd2 ltac:(lia)).
  pose proof (digits2_pos_bounds m1) as [_ Hhi].
  pose proof (digits2_pos_bounds m2) as [Hlo _].
  rewrite Hd2 in Hlo.
  assert (H1 : Zpos m1 < 2 ^ 53).
  { apply Z.lt_le_trans with (1 := Hhi). apply Z.pow_le_mono_r; lia. }
  replace (e1 - e1) with 0 by lia. rewrite Z.pow_0_r, Z.mul_1_r.
  assert (H2 : 2 ^ 1 <= 2 ^ (e2 - e1)) by (apply Z.pow_le_mono_r; lia).
  change (2 ^ 1) with 2 in H2. change (53 - 1) with 52 in Hlo.
  change (2 ^ 53) with (2 ^ 52 * 2) in H1. nia.
Qed.

Lemma SFcompare_Gt_value (x y : spec_float) :
  valid_binary 53 1024 x = true -> valid_binary 53 1024 y = true ->
  small_exp x -> small_exp y ->
  SFcompare x y = Some Gt ->
  (SF2Q y < SF2Q x)%Q.
Proof.
  destruct x as [sx | sx | | sx mx ex]; destruct y as [sy | sy | | sy my ey];
    cbn [small_exp]; try contradiction; intros Vx Vy Hx Hy; cbn [SFcompare].
  - discriminate.
  - destruct sy; [intros _ | discriminate].
    now apply (proj2 (SF2Q_sign true my ey)).
  - destruct sx; [discriminate | intros _].
    now apply (proj1 (SF2Q_sign false mx ex)).
  - destruct sx, sy.
    + (* both negative *)
      destruct (Z.compare_spec ex ey) as [E | L | G]; try discriminate.
      * subst ey. intros H.
        assert (Hm : (mx < my)%positive).
        { rewrite Pos.compare_cont_spec in H. cbn in H.
          destruct (Pos.compare_spec mx my); try discriminate. assumption. }
        apply (SF2Q_lt_aligned true true mx my ex ex ex); try lia.
        cbn [cond_Zopp]. replace (ex - ex) with 0 by lia. lia.
      * intros _. apply (SF2Q_lt_aligned true true mx my ex ey ex); try lia.
        cbn [cond_Zopp].
        pose proof (canonical_exp_lt mx my ex ey) as H.
        cbn [valid_binary] in *. specialize (H Vx Vy L). lia.
    + discriminate.
    + intros _. apply Qlt_trans with 0%Q.
      * now apply (proj2 (SF2Q_sign true my ey)).
      * now apply (proj1 (SF2Q_sign false mx ex)).
    + (* both positive *)
      destruct (Z.compare_spec ex ey) as [E | L | G]; try discriminate.
      * subst ey. intros H.
        assert (Hm : (my < mx)%positive).
        { rewrite Pos.compare_cont_spec in H. cbn in H.
          destruct (Pos.compare_spec mx my); try discriminate. assumption. }
        apply (SF2Q_lt_aligned false false mx my ex ex ex); try lia.
        cbn [cond_Zopp]. replace (ex - ex) with 0 by lia. lia.
      * intros _. apply (SF2Q_lt_aligned false false mx my ex ey ey); try lia.
        cbn [cond_Zopp].
        pose proof (canonical_exp_lt my mx ey ex) as H.
        cbn [valid_binary] in *. specialize (H Vy Vx G). lia.
Qed.

Lemma binary64_small_exp (f : spec_float) :
  binary64 f ->
  (exists s, f = S754_infinity s) \/ small_exp f.
Proof.
  intros [V N]. destruct f as [s | s | | s m e].
  - right. exact I.
  - left. now exists s.
  - contradiction.
  - right. cbn. now apply valid_finite_facts in V.
Qed.

Lemma SFsub_lt_pos (x y : spec_float) :
  (exists s, x = S754_infinity s) \/ small_exp x ->
  (exists s, y = S754_infinity s) \/ small_exp y ->
  sf_lt y x ->
  float_positive (SFsub 53 1024 x y).
Proof.
  intros [[sx ->] | Sx] [[sy ->] | Sy] Hlt.
  - cbn in Hlt. destruct Hlt as [-> ->]. reflexivity.
  - destruct y as [sy | sy | | sy my ey]; cbn in Sy; try contradiction;
      cbn in Hlt; subst sx; reflexivity.
  - destruct x as [sx | sx | | sx mx ex]; cbn in Sx; try contradiction;
      cbn in Hlt; subst sy; reflexivity.
  - apply SFsub_value_pos; try assumption.
    destruct x as [sx | sx | | sx mx ex]; cbn in Sx; try contradiction;
    destruct y as [sy | sy | | sy my ey]; cbn in Sy; try contradiction;
      exact Hlt.
Qed.

Lemma SFleb_false_lt (x y : spec_float) :
  binary64 x -> binary64 y -> SFleb x y = false -> sf_lt y x.
Proof.
  intros Fx Fy. unfold SFleb.
  destruct (binary64_small_exp x Fx) as [[sx ->] | Sx];
  destruct (binary64_small_exp y Fy) as [[sy ->] | Sy].
  - cbn. destruct sx, sy; try discriminate. now split.
  - destruct y as [sy | sy | | sy my ey]; cbn in Sy; try contradiction;
      cbn; destruct sx; try discriminate; reflexivity.
  - destruct x as [sx | sx | | sx mx ex]; cbn in Sx; try contradiction;
      cbn; destruct sy; try discriminate; reflexivity.
  - assert (Hgt : SFcompare x y = Some Gt -> sf_lt y x).
    { intros H. pose proof (SFcompare_Gt_value x y (proj1 Fx) (proj1 Fy) Sx Sy H).
      destruct x as [sx | sx | | sx mx ex]; cbn in Sx; try contradiction;
      destruct y as [sy | sy | | sy my ey]; cbn in Sy; try contradiction;
        assumption. }
    destruct (SFcompare x y) as [[]|] eqn:Hc; try discriminate.
    + intros _. now apply Hgt.
    + exfalso.
      destruct x as [sx | sx | | sx mx ex]; cbn in Sx; try contradiction;
      destruct y as [sy | sy | | sy my ey]; cbn in Sy; try contradiction;
        discriminate Hc.
Qed.

Lemma float_cmp_int_lt (f : spec_float) (z : Z) :
  binary64 f -> Z.abs z <= 2 ^ 53 ->
  (float_cmp_int f z = Some Lt -> sf_lt f (b64_of_int z)) /\
  (float_cmp_int f z = Some Gt -> sf_lt (b64_of_int z) f).
Proof.
  intros Ff Hz.
  destruct (b64_of_int_exact z Hz) as [_ [Sz Vz]].
  destruct (binary64_small_exp f Ff) as [[s ->] | Sf].
  - cbn [float_cmp_int]. destruct (b64_of_int z) as [sz | sz | | sz mz ez];
      cbn in Sz; try contradiction; destruct s; split; intros H;
      try discriminate H; reflexivity.
  - assert (Hc : float_cmp_int f z = Some (SF2Q f ?= inject_Z z)%Q).
    { destruct f as [sf | sf | | sf mf ef]; cbn in Sf; try contradiction;
        reflexivity. }
    rewrite Hc. split; intros H; injection H as H.
    + rewrite <- Qlt_alt, <- Vz in H.
      destruct f as [sf | sf | | sf mf ef]; cbn in Sf; try contradiction;
      destruct (b64_of_int z) as [sz | sz | | sz mz ez];
        cbn in Sz; try contradiction; exact H.
    + rewrite <- Qgt_alt, <- Vz in H.
      destruct f as [sf | sf | | sf mf ef]; cbn in Sf; try contradiction;
      destruct (b64_of_int z) as [sz | sz | | sz mz ez];
        cbn in Sz; try contradiction; exact H.
Qed.

(** ** The subtraction behind [budget_remaining] *)

(** Past the budget gate the difference of two plain numbers is computed
    without error and is strictly positive. *)
Lemma num_sub_positive (limit spent : pynum) :
  plain_number limit -> plain_number spent ->
  num_ge spent limit = false ->
  exists n, num_sub limit spent = inr n /\ num_positive n.
Proof.
  destruct limit as [l | g]; destruct spent as [z | f];
    cbn [plain_number num_ge num_sub]; intros Hl Hs Hge.
  - exists (PyI (l - z)). split; [reflexivity | ].
    cbn. apply Z.leb_gt in Hge. lia.
  - destruct (b64_of_int_exact l Hl) as [Hconv [Sl _]]. rewrite Hconv.
    exists (PyF (SFsub 53 1024 (b64_of_int l) f)). split; [reflexivity | ].
    cbn. apply SFsub_lt_pos;
      [now right | now apply binary64_small_exp | ].
    apply (float_cmp_int_lt f l Hs Hl).
    destruct (float_cmp_int f l) as [[]|] eqn:Hc; try discriminate;
      [reflexivity | ].
    exfalso. destruct Hs as [_ Hnan].
    destruct f; try discriminate Hc. now apply Hnan.
  - destruct (b64_of_int_exact z Hs) as [Hconv [Sz _]]. rewrite Hconv.
    exists (PyF (SFsub 53 1024 g (b64_of_int z))). split; [reflexivity | ].
    cbn. apply SFsub_lt_pos;
      [now apply binary64_small_exp | now right | ].
    apply (float_cmp_int_lt g z Hl Hs).
    destruct (float_cmp_int g z) as [[]|] eqn:Hc; try discriminate;
      [reflexivity | ].
    exfalso. destruct Hl as [_ Hnan].
    destruct g; try discriminate Hc. now apply Hnan.
  - exists (PyF (SFsub 53 1024 g f)). split; [reflexivity | ].
    cbn. apply SFsub_lt_pos;
      [now apply binary64_small_exp | now apply binary64_small_exp | ].
    now apply SFleb_false_lt.
Qed.

End Binary64.

(** ** [track_cost] on Python numbers *)

(** C7, as stated, fails: the amount is computed and added in binary64.
    570000 tokens at cost 100 take the counter from 0 to
    56.99999999999999, not to 57; and one million tokens at cost 3, billed
    after 100000 tokens, raise the counter from 0.30000000000000004 to 3.3,
    which is not a rise of 3. *)
Lemma track_cost64_rounds :
  track_cost64 (Sample.router64_x 100 (PyI 0) (PyI 50000)) "x" 570000 =
    inr (Sample.router64_x 100
           (PyF (S754_finite false 8022036836253695 (-47))) (PyI 50000)) /\
  ~ (SF2Q (S754_finite false 8022036836253695 (-47))
     == 0 + inject_Z 570000 / 1000000 * inject_Z 100)%Q /\
  track_cost64 (Sample.router64_x 3 (PyI 0) (PyI 50000)) "x" 100000 =
    inr (Sample.router64_x 3
           (PyF (S754_finite false 5404319552844596 (-54))) (PyI 50000)) /\
  track_cost64
    (Sample.router64_x 3
       (PyF (S754_finite false 5404319552844596 (-54))) (PyI 50000))
    "x" 1000000 =
    inr (Sample.router64_x 3
           (PyF (S754_finite false 7430939385161318 (-51))) (PyI 50000)) /\
  ~ (SF2Q (S754_finite false 7430939385161318 (-51))
     - SF2Q (S754_finite false 5404319552844596 (-54)) == 3)%Q.
Proof.
  split; [vm_compute; reflexivity | ].
  split; [intros H; vm_compute in H; discriminate H | ].
  split; [vm_compute; reflexivity | ].
  split; [vm_compute; reflexivity | ].
  intros H; vm_compute in H; discriminate H.
Qed.

(** C7 (amended): for an unknown model id [track_cost] changes nothing.  For
    a registered one it either raises [OverflowError], the state being left
    as it was, or stores as [budget_spent_today] the binary64 sum of the
    counter and of the binary64 value of
    [tokens_used / 1_000_000 * cost_per_1m_tokens], and changes no other
    field.  With one million tokens on a model that costs 3 the amount added
    is exactly 3.0, and the counter goes from 0 to 3. *)
Theorem track_cost64_spec (self : Router64) (model_id : string)
  (tokens_used : Z) :
  (dict_get model_id (models64 self) = None ->
   track_cost64 self model_id tokens_used = inr self) /\
  (forall self',
     track_cost64 self model_id tokens_used = inr self' ->
     config_path64 self' = config_path64 self /\
     models64 self' = models64 self /\
     routing_rules64 self' = routing_rules64 self /\
     daily_limit64 self' = daily_limit64 self /\
     (forall model,
        dict_get model_id (models64 self) = Some model ->
        exists per_million cost spent,
          int_truediv tokens_used 1000000 = inr per_million /\
          float_mul_int per_million (cost_per_1m_tokens model) = inr cost /\
          num_add_float (budget_spent_today64 self) cost = inr spent /\
          budget_spent_today64 self' = PyF spent)) /\
  (forall model,
     dict_get model_id (models64 self) = Some model ->
     cost_per_1m_tokens model = 3%Z ->
     tokens_used = 1000000%Z ->
     track_cost64 self model_id tokens_used =
       match num_add_float (budget_spent_today64 self) (b64_of_int 3) with
       | inl e => inl e
       | inr spent =>
           inr (mkRouter64 (config_path64 self) (models64 self)
                  (routing_rules64 self) (PyF spent) (daily_limit64 self))
       end /\
     (SF2Q (b64_of_int 3) == 3)%Q /\
     (budget_spent_today64 self = PyI 0 ->
      track_cost64 self model_id tokens_used =
        inr (mkRouter64 (config_path64 self) (models64 self)
               (routing_rules64 self) (PyF (b64_of_int 3))
               (daily_limit64 self)))).
Proof.
  unfold track_cost64. split; [ | split].
  - now intros ->.
  - intros self'.
    destruct (dict_get model_id (models64 self)) as [model|].
    + destruct (int_truediv tokens_used 1000000) as [e | per_million]
        eqn:Hdiv; [discriminate | ].
      destruct (float_mul_int per_million (cost_per_1m_tokens model))
        as [e | cost] eqn:Hmul; [discriminate | ].
      destruct (num_add_float (budget_spent_today64 self) cost)
        as [e | spent] eqn:Hadd; [discriminate | ].
      intros H. injection H as <-. cbn.
      repeat split. intros model' H. injection H as <-.
      exists per_million, cost, spent. repeat split; assumption.
    + intros H. injection H as <-. repeat split. discriminate.
  - intros model -> Hcost ->. rewrite Hcost.
    change (int_truediv 1000000 1000000)
      with (@inr pyerror _ (S754_finite false 4503599627370496 (-52))).
    change (float_mul_int (S754_finite false 4503599627370496 (-52)) 3)
      with (@inr pyerror _ (b64_of_int 3)).
    split; [reflexivity | split; [reflexivity | ]].
    intros ->. reflexivity.
Qed.

Lemma track_cost64_spec_witness :
  track_cost64 (Sample.router64_x 3 (PyI 0) (PyI 50000)) "y" 1000000 =
    inr (Sample.router64_x 3 (PyI 0) (PyI 50000)) /\
  track_cost64 (Sample.router64_x 3 (PyI 0) (PyI 50000)) "x" 1000000 =
    inr (Sample.router64_x 3 (PyF (b64_of_int 3)) (PyI 50000)) /\
  (SF2Q (b64_of_int 3) == 3)%Q.
Proof.
  destruct (track_cost64_spec (Sample.router64_x 3 (PyI 0) (PyI 50000))
              "y" 1000000) as [Hunknown _].
  destruct (track_cost64_spec (Sample.router64_x 3 (PyI 0) (PyI 50000))
              "x" 1000000) as [_ [_ Hthree]].
  destruct (Hthree (Sample.chat_model "Model X" 3) eq_refl eq_refl eq_refl)
    as [_ [Hvalue Hzero]].
  split; [exact (Hunknown eq_refl) | ].
  split; [exact (Hzero eq_refl) | exact Hvalue].
Defined.

(** The counterexample of C8 in binary64: a negative token count lowers the
    counter there too, from 0 to -3.0. *)
Example track_cost64_negative_tokens :
  track_cost64 (Sample.router64_x 3 (PyI 0) (PyI 50000)) "x" (-1000000) =
    inr (Sample.router64_x 3 (PyF (b64_of_int (-3))) (PyI 50000)) /\
  num_ge (PyF (b64_of_int (-3))) (PyI 0) = false.
Proof. split; vm_compute; reflexivity. Qed.

(** A token count or a cost beyond the range of a float raises. *)
Example track_cost64_overflow :
  track_cost64 (Sample.router64_x 3 (PyI 0) (PyI 50000)) "x" (10 ^ 400)
  = inl OverflowError /\
  track_cost64 (Sample.router64_x (10 ^ 400) (PyI 0) (PyI 50000)) "x" 1
  = inl OverflowError.
Proof. split; vm_compute; reflexivity. Qed.

(** ** [route_task] on Python numbers *)

(** Past the gate the decision is built from the first rule that matches. *)
Lemma route_task64_first (self : Router64) (task : Task)
  (skipped rest : list RoutingRule) (rule : RoutingRule) :
  num_ge (budget_spent_today64 self) (daily_limit64 self) = false ->
  routing_rules64 self = (skipped ++ rule :: rest)%list ->
  (forall r, In r skipped -> ~ rule_matches r task) ->
  rule_matches rule task ->
  route_task64 self task = rule_decision64 self task rule.
Proof.
  intros Hgate Hrules Hskip Hrule. unfold route_task64.
  rewrite Hgate, Hrules, scan_rules_first; [reflexivity | | ].
  - intros r Hin. now apply rule_applies_false, Hskip.
  - now apply rule_applies_spec.
Qed.

Lemma rule_decision64_fields (self : Router64) (task : Task)
  (rule : RoutingRule) :
  match num_sub (daily_limit64 self) (budget_spent_today64 self) with
  | inl e => rule_decision64 self task rule = inl e
  | inr n =>
      exists d,
        rule_decision64 self task rule = inr d /\
        dict_get "status" d = Some (StrVal "routed") /\
        dict_get "budget_remaining" d = Some (NumVal n)
  end.
Proof.
  unfold rule_decision64.
  destruct (num_sub (daily_limit64 self) (budget_spent_today64 self))
    as [e | n]; [reflexivity | ].
  eexists. split; [reflexivity | split; reflexivity].
Qed.

(** C9, as stated, fails: an [int] limit is converted before it is
    subtracted from a [float].  Billing [2^53] million tokens at cost 1
    leaves the counter at [2^53], below a limit of [2^53 + 1]; the gate lets
    the task through, the rule matches, and [budget_remaining] is 0.0. *)
Lemma route_task64_budget_remaining_zero :
  track_cost64
    (Sample.router64_x 1 (PyI 0) (PyI 9007199254740993))
    "x" 9007199254740992000000 =
    inr (Sample.router64_x 1 (PyF (b64_of_int 9007199254740992))
           (PyI 9007199254740993)) /\
  num_ge (PyF (b64_of_int 9007199254740992)) (PyI 9007199254740993)
  = false /\
  route_task64
    (Sample.router64_x 1 (PyF (b64_of_int 9007199254740992))
       (PyI 9007199254740993)) Sample.chat_task =
  rule_decision64
    (Sample.router64_x 1 (PyF (b64_of_int 9007199254740992))
       (PyI 9007199254740993)) Sample.chat_task Sample.rule_x /\
  (exists d,
     route_task64
       (Sample.router64_x 1 (PyF (b64_of_int 9007199254740992))
          (PyI 9007199254740993)) Sample.chat_task = inr d /\
     dict_get "budget_remaining" d = Some (NumVal (PyF (S754_zero false)))) /\
  ~ num_positive (PyF (S754_zero false)).
Proof.
  split; [vm_compute; reflexivity | ].
  split; [vm_compute; reflexivity | ].
  split; [vm_compute; reflexivity | ].
  split; [eexists; split; vm_compute; reflexivity | ].
  intros H. discriminate H.
Qed.

(** C9 (amended): a decision that [route_task] returns from the rule loop
    is returned with the budget gate open, and its [budget_remaining] is the
    value of [daily_limit - budget_spent_today] as the interpreter computes
    it, or the call raises the [OverflowError] of that subtraction.  The
    value is the exact difference, strictly positive, for two [int]s; more
    generally it is strictly positive whenever each of the two numbers is an
    [int] of magnitude at most [2^53] or a binary64 float other than NaN. *)
Theorem route_task64_budget_remaining (self : Router64) (task : Task)
  (rule : RoutingRule) :
  route_task64 self task = rule_decision64 self task rule ->
  num_ge (budget_spent_today64 self) (daily_limit64 self) = false /\
  match num_sub (daily_limit64 self) (budget_spent_today64 self) with
  | inl e => route_task64 self task = inl e
  | inr n =>
      exists d,
        route_task64 self task = inr d /\
        dict_get "budget_remaining" d = Some (NumVal n)
  end /\
  (forall l z,
     daily_limit64 self = PyI l ->
     budget_spent_today64 self = PyI z ->
     num_sub (daily_limit64 self) (budget_spent_today64 self)
     = inr (PyI (l - z)) /\ (0 < l - z)%Z) /\
  (plain_number (daily_limit64 self) ->
   plain_number (budget_spent_today64 self) ->
   exists n,
     num_sub (daily_limit64 self) (budget_spent_today64 self) = inr n /\
     num_positive n).
Proof.
  intros Hret.
  pose proof (rule_decision64_fields self task rule) as Hfields.
  assert (Hgate : num_ge (budget_spent_today64 self) (daily_limit64 self)
                  = false).
  { destruct (num_ge (budget_spent_today64 self) (daily_limit64 self))
      eqn:Hge; [exfalso | reflexivity].
    unfold route_task64 in Hret. rewrite Hge in Hret.
    destruct (num_sub (daily_limit64 self) (budget_spent_today64 self))
      as [e | n].
    - rewrite Hfields in Hret. discriminate Hret.
    - destruct Hfields as [d [Hd [Hstatus _]]]. rewrite Hd in Hret.
      injection Hret as <-. discriminate Hstatus. }
  split; [exact Hgate | ].
  split; [ | split].
  - rewrite Hret.
    destruct (num_sub (daily_limit64 self) (budget_spent_today64 self))
      as [e | n]; [exact Hfields | ].
    destruct Hfields as [d [Hd [_ Hrem]]]. now exists d.
  - intros l z Hl Hz. rewrite Hl, Hz in *. cbn in Hgate |- *.
    apply Z.leb_gt in Hgate. split; [reflexivity | lia].
  - intros Hl Hs. now apply num_sub_positive.
Qed.

Lemma route_task64_budget_remaining_witness :
  exists d,
    route_task64
      (Sample.router64_x 100
         (PyF (S754_finite false 8022036836253695 (-47))) (PyI 57))
      Sample.chat_task = inr d /\
    dict_get "budget_remaining" d
    = Some (NumVal (PyF (S754_finite false 4503599627370496 (-99)))) /\
    num_positive (PyF (S754_finite false 4503599627370496 (-99))).
Proof.
  assert (Hret : route_task64
                   (Sample.router64_x 100
                      (PyF (S754_finite false 8022036836253695 (-47)))
                      (PyI 57)) Sample.chat_task =
                 rule_decision64
                   (Sample.router64_x 100
                      (PyF (S754_finite false 8022036836253695 (-47)))
                      (PyI 57)) Sample.chat_task Sample.rule_x)
    by (vm_compute; reflexivity).
  destruct (route_task64_budget_remaining _ _ _ Hret)
    as [_ [Hrem [_ Hpos]]].
  destruct Hpos as [n [Hn Hn_pos]].
  - cbn. vm_compute. discriminate.
  - cbn. split; [vm_compute; reflexivity | discriminate].
  - cbn [Sample.router64_x daily_limit64 budget_spent_today64] in Hrem, Hn.
    rewrite Hn in Hrem. destruct Hrem as [d [Hd Hkey]].
    exists d. split; [exact Hd | ].
    assert (E : n = PyF (S754_finite false 4503599627370496 (-99))).
    { vm_compute in Hn. now injection Hn as <-. }
    rewrite <- E. split; [exact Hkey | exact Hn_pos].
Defined.
